(** * Twitter Status Bot: sticker-set slot and inline-selection bookkeeping

    A shallow embedding of [bot.py].  The handlers of the bot talk to the
    Telegram Bot API and to the per-user [user_data] store.  Every such
    interaction is an event of a small free monad [Prog]; a handler of the
    bot is a tree of events, written in the order of the Python source.
    The events are given a meaning by a model of the platform ([exec]),
    and the same trees are run either to completion, one handler after the
    other, or one event at a time under a schedule. *)

From Stdlib Require Import Ascii.
From stdpp Require Import gmap strings list fin_maps pretty.

Open Scope string_scope.
Open Scope list_scope.

(** ** Python strings *)

(** [needle in hay] on Python strings. *)
Fixpoint contains (needle hay : string) : bool :=
  if String.prefix needle hay then true
  else match hay with
       | EmptyString => false
       | String _ hay' => contains needle hay'
       end.

(** [s.startswith(p)]. *)
Definition startswith (s p : string) : bool := String.prefix p s.

(** Truth value of a Python string: the empty string is falsy. *)
Definition truthy (s : string) : bool :=
  match s with EmptyString => false | String _ _ => true end.

(** ** Data of the Telegram library used by the bot *)

Record Sticker := mkSticker { file_id : string; emoji : string }.

Record StickerSet := mkStickerSet { set_name : string; stickers : list Sticker }.

Record User := mkUser { user_id : Z; first_name : string }.

Record InlineQueryResultCachedSticker :=
  mkCachedSticker { id : string; sticker_file_id : string }.

(** The keyword arguments [inline] collects for [inline_query.answer]; the
    arguments that are the same in every call ([is_personal], [auto_pagination],
    [cache_time]) are left out. *)
Record AnswerKwargs := mkKwargs {
  results : list InlineQueryResultCachedSticker;
  switch_pm_text : option string;
  switch_pm_parameter : option string
}.

Global Instance Sticker_eq_dec : EqDecision Sticker.
Proof. solve_decision. Defined.

Global Instance CachedSticker_eq_dec : EqDecision InlineQueryResultCachedSticker.
Proof. solve_decision. Defined.

(** ** [context.user_data]

    The dictionary of one user.  The bot uses two keys: [FILE_IDS] holds the
    list of stickers the user has sent (the history), [TEMP_FILE_IDS] holds
    the dictionary from result keys to stickers offered in an inline answer
    and not yet chosen.  [None] is an absent key. *)

Record UserData := mkUserData {
  FILE_IDS : option (list string);
  TEMP_FILE_IDS : option (gmap string string)
}.

Definition no_user_data : UserData := mkUserData None None.

(** [user_data.setdefault(FILE_IDS, [])] *)
Definition setdefault_FILE_IDS (ud : UserData) : list string * UserData :=
  match FILE_IDS ud with
  | Some l => (l, ud)
  | None => ([], mkUserData (Some []) (TEMP_FILE_IDS ud))
  end.

(** [user_data.setdefault(TEMP_FILE_IDS, {})] *)
Definition setdefault_TEMP_FILE_IDS (ud : UserData) : gmap string string * UserData :=
  match TEMP_FILE_IDS ud with
  | Some d => (d, ud)
  | None => (∅, mkUserData (FILE_IDS ud) (Some ∅))
  end.

(** [user_data.setdefault(FILE_IDS, []).append(file_id)] *)
Definition append_FILE_IDS (fid : string) (ud : UserData) : unit * UserData :=
  let '(l, ud') := setdefault_FILE_IDS ud in
  (tt, mkUserData (Some (l ++ [fid])) (TEMP_FILE_IDS ud')).

(** [user_data.setdefault(TEMP_FILE_IDS, {})[key] = file_id] *)
Definition store_TEMP_FILE_IDS (key fid : string) (ud : UserData) : unit * UserData :=
  let '(d, ud') := setdefault_TEMP_FILE_IDS ud in
  (tt, mkUserData (FILE_IDS ud') (Some (<[key := fid]> d))).

(** [temp_dict.clear()]: the dictionary object stays under its key, emptied. *)
Definition clear_TEMP_FILE_IDS (ud : UserData) : unit * UserData :=
  let '(_, ud') := setdefault_TEMP_FILE_IDS ud in
  (tt, mkUserData (FILE_IDS ud') (Some ∅)).

(** The history and the pending selections of a user, absent keys read as empty. *)
Definition history (ud : UserData) : list string := default [] (FILE_IDS ud).
Definition pending (ud : UserData) : gmap string string := default ∅ (TEMP_FILE_IDS ud).

(** ** Exceptions *)

Inductive Exn :=
| BadRequest (msg : string)
| HyphenationError (msg : string)
| IndexError.

(** ** Events

    One constructor per call the bot makes to the outside: the Bot API
    methods, [uuid4()], and the operations on the [user_data] of a user.
    An event of type [Api R] is answered by a value of [R], or by the
    message of a [BadRequest]. *)

Inductive Api : Type -> Type :=
| GetStickerSet (name : string) : Api StickerSet
| CreateNewStickerSet (owner : Z) (name title emojis png_sticker : string) : Api unit
| AddStickerToSet (owner : Z) (name emojis png_sticker : string) : Api unit
| DeleteStickerFromSet (sticker : string) : Api unit
| SendChatAction (chat_id : Z) (action : string) : Api unit
| ReplySticker (chat_id : Z) (sticker : string) : Api unit
| ReplyText (chat_id : Z) (text : string) : Api unit
| AnswerInlineQuery (inline_query_id : string) (kwargs : AnswerKwargs) : Api unit
| Uuid4 : Api string
| UserDataOp {R : Type} (uid : Z) (f : UserData -> R * UserData) : Api R.

(** ** Programs *)

Inductive Prog (A : Type) : Type :=
| Ret (a : A)
| Throw (e : Exn)
| Call {R : Type} (c : Api R) (k : string + R -> Prog A).

Arguments Ret {A} a.
Arguments Throw {A} e.
Arguments Call {A R} c k.

Fixpoint bind {A B} (p : Prog A) (f : A -> Prog B) : Prog B :=
  match p with
  | Ret a => f a
  | Throw e => Throw e
  | Call c k => Call c (fun r => bind (k r) f)
  end.

(** [try: p  except: h e]; the handler re-raises what it does not catch. *)
Fixpoint catch {A} (p : Prog A) (h : Exn -> Prog A) : Prog A :=
  match p with
  | Ret a => Ret a
  | Throw e => h e
  | Call c k => Call c (fun r => catch (k r) h)
  end.

(** A call whose [BadRequest] is raised as a Python exception. *)
Definition call {R} (c : Api R) : Prog R :=
  Call c (fun r => match r with inl msg => Throw (BadRequest msg) | inr a => Ret a end).

Fixpoint for_each {A} (l : list A) (body : A -> Prog unit) : Prog unit :=
  match l with
  | [] => Ret tt
  | x :: l' => bind (body x) (fun _ => for_each l' body)
  end.

Declare Scope prog_scope.
Delimit Scope prog_scope with prog.
Bind Scope prog_scope with Prog.
Notation "'let*' x := p 'in' q" := (bind p (fun x => q))
  (at level 10, x name, p at level 100, q at level 200) : prog_scope.
Notation "p ;; q" := (bind p (fun _ => q))
  (at level 100, q at level 200, right associativity) : prog_scope.

(** Running a program on a platform: [h] answers the events and keeps the
    state of the platform. *)
Fixpoint run_on {W A} (h : forall R, Api R -> W -> (string + R) * W)
    (p : Prog A) (w : W) : (Exn + A) * W :=
  match p with
  | Ret a => (inr a, w)
  | Throw e => (inl e, w)
  | Call c k => let '(r, w') := h _ c w in run_on h (k r) w'
  end.

(** ** The platform

    What the bot can observe of Telegram: the sticker sets by name, the
    files uploaded so far (a new file gets the next file id), the inline
    queries that can no longer be answered, what has been delivered to the
    chats, the [user_data] of every user and the number of UUIDs drawn.

    The answers of the Bot API, as [exec] below gives them: a set that does
    not exist is [Stickerset_invalid] for [get_sticker_set] and
    [add_sticker_to_set]; [create_new_sticker_set] refuses a name that is
    taken; every uploaded file gets a file id that was not issued before;
    [delete_sticker_from_set] removes the sticker from the set that holds
    it and answers [Stickerset_not_modified] when no set does; an expired
    inline query cannot be answered; sending to a chat succeeds. *)

Inductive Sent :=
| SentChatAction (chat_id : Z) (action : string)
| SentSticker (chat_id : Z) (sticker : string)
| SentText (chat_id : Z) (text : string)
| SentAnswer (inline_query_id : string) (kwargs : AnswerKwargs).

Record World := mkWorld {
  sticker_sets : gmap string (list Sticker);
  uploads : list string;
  expired_queries : list string;
  outbox : list Sent;
  all_user_data : gmap Z UserData;
  drawn : nat
}.

(** The file id of the [n]-th uploaded file. *)
Definition issue_file_id (n : nat) : string := "file" +:+ pretty n.

Definition with_sticker_sets (m : gmap string (list Sticker)) (w : World) : World :=
  mkWorld m (uploads w) (expired_queries w) (outbox w) (all_user_data w) (drawn w).

Definition with_outbox (o : list Sent) (w : World) : World :=
  mkWorld (sticker_sets w) (uploads w) (expired_queries w) o (all_user_data w) (drawn w).

Definition with_user_data (uid : Z) (ud : UserData) (w : World) : World :=
  mkWorld (sticker_sets w) (uploads w) (expired_queries w) (outbox w)
          (<[uid := ud]> (all_user_data w)) (drawn w).

(** Uploading a file to the set [name], after the stickers [l] it holds. *)
Definition upload (name : string) (l : list Sticker) (emojis png : string) (w : World) : World :=
  mkWorld (<[name := l ++ [mkSticker (issue_file_id (length (uploads w))) emojis]]>
             (sticker_sets w))
          (uploads w ++ [png]) (expired_queries w) (outbox w) (all_user_data w) (drawn w).

(** Removing the sticker [fid] from whichever set holds it. *)
Definition remove_sticker (fid : string) (w : World) : World :=
  with_sticker_sets (filter (fun s => file_id s <> fid) <$> sticker_sets w) w.

Definition user_data_of (uid : Z) (w : World) : UserData :=
  default no_user_data (all_user_data w !! uid).

(** ** UUIDs

    [str(uuid4())] is 36 characters long: lower-case hexadecimal digits in
    groups of 8, 4, 4, 4 and 12 separated by dashes; the third group starts
    with the version 4, the fourth with 8, 9, a or b. *)

Definition is_hex (c : Ascii.ascii) : bool :=
  let n := Ascii.nat_of_ascii c in
  ((48 <=? n) && (n <=? 57) || (97 <=? n) && (n <=? 102))%nat.

Definition is_variant (c : Ascii.ascii) : bool :=
  if decide (c ∈ ["8"; "9"; "a"; "b"]%char) then true else false.

(** [x] stands for a hexadecimal digit, [y] for the variant digit, any other
    character for itself. *)
Fixpoint matches (pattern s : string) : bool :=
  match pattern, s with
  | EmptyString, EmptyString => true
  | String p pattern', String c s' =>
      (if decide (p = "x"%char) then is_hex c
       else if decide (p = "y"%char) then is_variant c
       else if decide (p = c) then true else false)
      && matches pattern' s'
  | _, _ => false
  end.

Definition is_uuid4 (s : string) : bool :=
  matches "xxxxxxxx-xxxx-4xxx-yxxx-xxxxxxxxxxxx" s.

(** ** Updates *)

Inductive Update :=
| TextMessage (user : User) (chat_id : Z) (text : string)
| InlineQuery (inline_query_id : string) (user : User) (query : string)
| ChosenInlineResult (user : User) (result_id : string).

(** ** A platform on which the name of the set is taken although the set
    cannot be fetched *)

Definition occupied_platform (R : Type) (c : Api R) : unit -> (string + R) * unit :=
  match c in Api R return unit -> (string + R) * unit with
  | GetStickerSet _ => fun u => (inl "Stickerset_invalid", u)
  | CreateNewStickerSet _ _ _ _ _ => fun u => (inl "Sticker set name is already occupied", u)
  | AddStickerToSet _ _ _ _ => fun u => (inl "Stickerset_invalid", u)
  | DeleteStickerFromSet _ => fun u => (inl "Stickerset_not_modified", u)
  | SendChatAction _ _ => fun u => (inr tt, u)
  | ReplySticker _ _ => fun u => (inr tt, u)
  | ReplyText _ _ => fun u => (inr tt, u)
  | AnswerInlineQuery _ _ => fun u => (inr tt, u)
  | Uuid4 => fun u => (inr "00000000-0000-4000-8000-000000000000", u)
  | UserDataOp _ f => fun u => (inr (fst (f no_user_data)), u)
  end.

(** ** Sample data

    A renderer that fails on texts of more than five characters, two
    UUIDs, two users, and platforms without and with the sticker set. *)

Definition sample_render (text : string) (user : User) : string + string :=
  if (String.length text <=? 5)%nat
  then inr ("png of " +:+ text +:+ " for " +:+ first_name user)
  else inl "Sorry, a word of this text does not fit on one line.".

Definition sample_uuid4 (n : nat) : string :=
  if (n =? 0)%nat then "3f2b8c1e-5d4a-4e6b-9c7d-1a2b3c4d5e6f"
  else "7a1d2c3b-0e9f-4a8b-8c7d-6e5f4a3b2c1d".

Definition alice : User := mkUser 1 "Alice".
Definition bob : User := mkUser 2 "Bob".

Definition fresh_world : World := mkWorld ∅ [] [] [] ∅ 0.

Definition seeded_world : World :=
  mkWorld {[ "tweets_by_status_bot" := [mkSticker "file0" "🐦"] ]} ["logo"] [] [] ∅ 0.

Definition live_world : World :=
  mkWorld {[ "tweets_by_status_bot" := [mkSticker "file0" "🐦"; mkSticker "file1" "🐦"] ]}
          ["logo"; "png"] [] [] ∅ 0.

(** A platform where four stickers were left in the set. *)
Definition littered_world : World :=
  mkWorld {[ "tweets_by_status_bot" :=
               [mkSticker "file0" "🐦"; mkSticker "file1" "🐦";
                mkSticker "file2" "🐦"; mkSticker "file3" "🐦"] ]}
          ["logo"; "png one"; "png two"; "png three"] [] [] ∅ 0.

(** A platform with the set in place on which the inline query [q1] has
    expired. *)
Definition stale_world : World :=
  mkWorld {[ "tweets_by_status_bot" := [mkSticker "file0" "🐦"] ]} ["logo"] ["q1"] [] ∅ 0.

(** A platform that refuses every [delete_sticker_from_set] for a reason
    of its own and knows one set of two stickers. *)
Definition refusing_platform (R : Type) (c : Api R) : unit -> (string + R) * unit :=
  match c in Api R return unit -> (string + R) * unit with
  | GetStickerSet name =>
      fun u => (inr (mkStickerSet name [mkSticker "file0" "🐦"; mkSticker "file1" "🐦"]), u)
  | CreateNewStickerSet _ _ _ _ _ => fun u => (inl "Sticker set name is already occupied", u)
  | AddStickerToSet _ _ _ _ => fun u => (inr tt, u)
  | DeleteStickerFromSet _ => fun u => (inl "Not enough rights", u)
  | SendChatAction _ _ => fun u => (inr tt, u)
  | ReplySticker _ _ => fun u => (inr tt, u)
  | ReplyText _ _ => fun u => (inr tt, u)
  | AnswerInlineQuery _ _ => fun u => (inr tt, u)
  | Uuid4 => fun u => (inr "00000000-0000-4000-8000-000000000000", u)
  | UserDataOp _ f => fun u => (inr (fst (f no_user_data)), u)
  end.

(** A platform on which no method is available to the bot. *)
Definition forbidding_platform (R : Type) (c : Api R) : unit -> (string + R) * unit :=
  match c in Api R return unit -> (string + R) * unit with
  | UserDataOp _ f => fun u => (inr (fst (f no_user_data)), u)
  | Uuid4 => fun u => (inr "00000000-0000-4000-8000-000000000000", u)
  | _ => fun u => (inl "Not enough rights", u)
  end.

Section Bot.

(** Configuration read from [bot.ini], the name of the bot and the logo file. *)
Variable ADMIN : Z.
Variable STICKER_SET_NAME : string.
Variable bot_username : string.
Variable logo_png : string.

(** Modelled from the spec: [twitter.build_sticker] is not among the sources.
    The spec takes it as [render(text, user) -> image | RenderError]: it
    returns the image, here its PNG bytes, or raises [HyphenationError]
    with the given message. *)
Variable build_sticker : string -> User -> string + string.

(** The [n]-th string [str(uuid4())] returns. *)
Variable uuid4 : nat -> string.

(** *** The Bot API on the model *)

Definition exec (R : Type) (c : Api R) : World -> (string + R) * World :=
  match c in Api R return World -> (string + R) * World with
  | GetStickerSet name => fun w =>
      match sticker_sets w !! name with
      | Some l => (inr (mkStickerSet name l), w)
      | None => (inl "Stickerset_invalid", w)
      end
  | CreateNewStickerSet _ name _ emojis png => fun w =>
      match sticker_sets w !! name with
      | Some _ => (inl "Sticker set name is already occupied", w)
      | None => (inr tt, upload name [] emojis png w)
      end
  | AddStickerToSet _ name emojis png => fun w =>
      match sticker_sets w !! name with
      | Some l => (inr tt, upload name l emojis png w)
      | None => (inl "Stickerset_invalid", w)
      end
  | DeleteStickerFromSet fid => fun w =>
      if decide (sticker_sets (remove_sticker fid w) = sticker_sets w)
      then (inl "Stickerset_not_modified", w)
      else (inr tt, remove_sticker fid w)
  | SendChatAction chat action => fun w =>
      (inr tt, with_outbox (outbox w ++ [SentChatAction chat action]) w)
  | ReplySticker chat fid => fun w =>
      (inr tt, with_outbox (outbox w ++ [SentSticker chat fid]) w)
  | ReplyText chat text => fun w =>
      (inr tt, with_outbox (outbox w ++ [SentText chat text]) w)
  | AnswerInlineQuery qid kwargs => fun w =>
      if bool_decide (qid ∈ expired_queries w)
      then (inl "Query is too old and response timeout expired or query id is invalid", w)
      else (inr tt, with_outbox (outbox w ++ [SentAnswer qid kwargs]) w)
  | Uuid4 => fun w =>
      (inr (uuid4 (drawn w)),
       mkWorld (sticker_sets w) (uploads w) (expired_queries w) (outbox w)
               (all_user_data w) (S (drawn w)))
  | UserDataOp uid f => fun w =>
      let '(r, ud) := f (user_data_of uid w) in (inr r, with_user_data uid ud w)
  end.

Definition run {A} (p : Prog A) (w : World) : (Exn + A) * World := run_on exec p w.

(** *** bot.py *)

Definition bird : string := "🐦".

Definition build_sticker_set_name : string :=
  STICKER_SET_NAME +:+ "_by_" +:+ bot_username.

Definition get_sticker_set (name : string) : Prog StickerSet :=
  catch (call (GetStickerSet name))
    (fun e =>
       match e with
       | BadRequest msg =>
           if contains "invalid" msg then
             (call (CreateNewStickerSet ADMIN name STICKER_SET_NAME bird logo_png) ;;
              call (GetStickerSet name))%prog
           else Throw e
       | _ => Throw e
       end).

Definition clean_sticker_set : Prog unit :=
  (let* sticker_set := get_sticker_set build_sticker_set_name in
   if (1 <? length (stickers sticker_set))%nat then
     for_each (tail (stickers sticker_set)) (fun sticker =>
       catch (call (DeleteStickerFromSet (file_id sticker)))
         (fun e =>
            match e with
            | BadRequest msg =>
                if contains "Stickerset_not_modified" msg then Ret tt else Throw e
            | _ => Throw e
            end))
   else Ret tt)%prog.

Definition get_sticker_id (text : string) (user : User) : Prog string :=
  (clean_sticker_set ;;
   let sticker_set_name := build_sticker_set_name in
   let emojis := bird in
   match build_sticker text user with
   | inl msg => Throw (HyphenationError msg)
   | inr sticker_stream =>
       get_sticker_set sticker_set_name ;;
       call (AddStickerToSet ADMIN sticker_set_name emojis sticker_stream) ;;
       let* sticker_set := get_sticker_set sticker_set_name in
       match last (stickers sticker_set) with
       | Some sticker => Ret (file_id sticker)
       | None => Throw IndexError
       end
   end)%prog.

Definition message (user : User) (chat_id : Z) (text : string) : Prog unit :=
  (call (SendChatAction (user_id user) "upload_photo") ;;
   catch
     (let* file_id := get_sticker_id text user in
      call (ReplySticker chat_id file_id) ;;
      call (UserDataOp (user_id user) (append_FILE_IDS file_id)))
     (fun e =>
        match e with
        | HyphenationError msg => call (ReplyText chat_id msg)
        | _ => Throw e
        end) ;;
   clean_sticker_set)%prog.

Definition inline (inline_query_id : string) (user : User) (query : string) : Prog unit :=
  (let* file_ids := call (UserDataOp (user_id user) setdefault_FILE_IDS) in
   let kwargs :=
     mkKwargs (imap (fun i sticker_id => mkCachedSticker ("tweet " +:+ pretty i) sticker_id)
                    (reverse file_ids))
              None None in
   let* kwargs :=
     (if truthy query then
        catch
          (let* file_id := get_sticker_id query user in
           let* key := call Uuid4 in
           call (UserDataOp (user_id user) (store_TEMP_FILE_IDS key file_id)) ;;
           Ret (mkKwargs (mkCachedSticker key file_id :: results kwargs)
                         (switch_pm_text kwargs) (switch_pm_parameter kwargs)))
          (fun e =>
             match e with
             | HyphenationError _ => Ret (mkKwargs [] (Some "Click me!") (Some "hyphenation_error"))
             | _ => Throw e
             end)
      else Ret kwargs) in
   catch (call (AnswerInlineQuery inline_query_id kwargs))
     (fun e =>
        match e with
        | BadRequest msg => if contains "Query is too old" msg then Ret tt else Throw e
        | _ => Throw e
        end) ;;
   clean_sticker_set)%prog.

Definition handle_chosen_inline_result (user : User) (result_id : string) : Prog unit :=
  if negb (startswith result_id "tweet") then
    (let* temp_dict := call (UserDataOp (user_id user) setdefault_TEMP_FILE_IDS) in
     let file_id := temp_dict !! result_id in
     match file_id with
     | Some fid =>
         if truthy fid then call (UserDataOp (user_id user) (append_FILE_IDS fid)) else Ret tt
     | None => Ret tt
     end ;;
     call (UserDataOp (user_id user) clear_TEMP_FILE_IDS))%prog
  else Ret tt.

(** *** What the functions do to the platform, as functions on [World] *)

Definition collection (w : World) : option (list Sticker) :=
  sticker_sets w !! build_sticker_set_name.

(** The platform once the set [name] has been made sure of. *)
Definition seeded_at (name : string) (w : World) : World :=
  match sticker_sets w !! name with
  | Some _ => w
  | None => upload name [] bird logo_png w
  end.

Definition seeded : World -> World := seeded_at build_sticker_set_name.

Fixpoint remove_all (l : list Sticker) (w : World) : World :=
  match l with
  | [] => w
  | s :: l' => remove_all l' (remove_sticker (file_id s) w)
  end.

(** The platform once all but the first sticker of the set are deleted. *)
Definition trimmed (w : World) : World :=
  match collection w with
  | Some l => remove_all (tail l) w
  | None => w
  end.

(** The platform once [png] is added to the set. *)
Definition published (png : string) (w : World) : World :=
  match collection w with
  | Some l => upload build_sticker_set_name l bird png w
  | None => w
  end.

Definition sent (x : Sent) (w : World) : World := with_outbox (outbox w ++ [x]) w.

Definition on_user_data {R} (uid : Z) (f : UserData -> R * UserData) (w : World) : World :=
  with_user_data uid (snd (f (user_data_of uid w))) w.

Definition collection_size (w : World) : nat := length (default [] (collection w)).

(** The first sticker of the set, which [clean_sticker_set] leaves in place. *)
Definition seed (w : World) : option Sticker := head (default [] (collection w)).

(** The file ids issued so far. *)
Definition issued (w : World) : list string :=
  issue_file_id <$> seq 0 (length (uploads w)).

(** The set exists, is not empty, and holds distinct stickers whose file
    ids were issued by the platform. *)
Definition well_kept (w : World) : Prop :=
  match collection w with
  | Some (s :: rest) =>
      NoDup (file_id <$> s :: rest) /\ (file_id <$> s :: rest) ⊆ issued w
  | _ => False
  end.

(** Sequences of publish and trim operations. *)
Inductive Op :=
| Publish (text : string) (user : User)
| Trim.

Definition perform (op : Op) (w : World) : World :=
  match op with
  | Publish text user => snd (run (get_sticker_id text user) w)
  | Trim => snd (run clean_sticker_set w)
  end.

(** The platform before the operations and after each of them. *)
Fixpoint states (ops : list Op) (w : World) : list World :=
  w :: match ops with
       | [] => []
       | op :: ops' => states ops' (perform op w)
       end.

(** The platform after each call a program makes when it runs alone. *)
Fixpoint trace {A} (p : Prog A) (w : World) : list World :=
  match p with
  | Call c k => let '(r, w') := exec _ c w in w' :: trace (k r) w'
  | _ => []
  end.

Definition moments_of (op : Op) (w : World) : list World :=
  match op with
  | Publish text user => trace (get_sticker_id text user) w
  | Trim => trace clean_sticker_set w
  end.

(** The platform after each call of each operation of a sequence. *)
Fixpoint moments (ops : list Op) (w : World) : list World :=
  match ops with
  | [] => []
  | op :: ops' => moments_of op w ++ moments ops' (perform op w)
  end.

Definition drew (w : World) : World :=
  mkWorld (sticker_sets w) (uploads w) (expired_queries w) (outbox w)
          (all_user_data w) (S (drawn w)).

(** The candidates [inline] builds from the history: latest first,
    numbered from 0. *)
Definition history_candidates (file_ids : list string) : list InlineQueryResultCachedSticker :=
  imap (fun i sticker_id => mkCachedSticker ("tweet " +:+ pretty i) sticker_id)
       (reverse file_ids).

(** What [inline] answers and what it leaves, step by step. *)
Definition inline_effect (inline_query_id : string) (user : User) (query : string)
    (w : World) : AnswerKwargs * World :=
  let uid := user_id user in
  let cands := history_candidates (history (user_data_of uid w)) in
  let w1 := on_user_data uid setdefault_FILE_IDS w in
  let '(kwargs, w2) :=
    if truthy query then
      match build_sticker query user with
      | inl _ =>
          (mkKwargs [] (Some "Click me!") (Some "hyphenation_error"), trimmed (seeded w1))
      | inr png =>
          let w' := published png (trimmed (seeded w1)) in
          let fid := issue_file_id (length (uploads (trimmed (seeded w1)))) in
          let key := uuid4 (drawn w') in
          (mkKwargs (mkCachedSticker key fid :: cands) None None,
           on_user_data uid (store_TEMP_FILE_IDS key fid) (drew w'))
      end
    else (mkKwargs cands None None, w1) in
  let w3 :=
    if bool_decide (inline_query_id ∈ expired_queries w2) then w2
    else sent (SentAnswer inline_query_id kwargs) w2 in
  (kwargs, trimmed (seeded w3)).

(** What [message] leaves. *)
Definition message_effect (user : User) (chat_id : Z) (text : string) (w : World) : World :=
  let w1 := sent (SentChatAction (user_id user) "upload_photo") w in
  let w2 :=
    match build_sticker text user with
    | inl msg => sent (SentText chat_id msg) (trimmed (seeded w1))
    | inr png =>
        let fid := issue_file_id (length (uploads (trimmed (seeded w1)))) in
        on_user_data (user_id user) (append_FILE_IDS fid)
          (sent (SentSticker chat_id fid) (published png (trimmed (seeded w1))))
    end in
  trimmed (seeded w2).

(** What [handle_chosen_inline_result] leaves in the [user_data] when the
    result id does not start with [tweet]. *)
Definition chosen_effect (result_id : string) (ud : UserData) : UserData :=
  mkUserData
    match pending ud !! result_id with
    | Some fid => if truthy fid then Some (history ud ++ [fid]) else FILE_IDS ud
    | None => FILE_IDS ud
    end
    (Some ∅).

(** The dispatcher: every update goes to its handler ([register_dispatcher]).
    Every text message is given to [message] here, also the commands
    [/start] and [/help] that [register_dispatcher] gives to [info], which
    touches neither the [user_data] nor the sets: the states reached this
    way include all those the bot reaches. *)
Definition dispatch (u : Update) : Prog unit :=
  match u with
  | TextMessage user chat_id text => message user chat_id text
  | InlineQuery inline_query_id user query => inline inline_query_id user query
  | ChosenInlineResult user result_id => handle_chosen_inline_result user result_id
  end.

(** The platforms the bot can be in: it starts without any [user_data] and
    handles one update after the other. *)
Inductive reachable : World -> Prop :=
| reachable_start (w : World) : all_user_data w = ∅ -> reachable w
| reachable_update (w : World) (u : Update) :
    reachable w -> reachable (snd (run (dispatch u) w)).

(** Every pending key is a UUID and every pending reference a non-empty string. *)
Definition session_ok (ud : UserData) : Prop :=
  map_Forall (fun key fid => is_uuid4 key = true /\ truthy fid = true) (pending ud).

Definition sessions_ok (w : World) : Prop :=
  forall uid : Z, session_ok (user_data_of uid w).

(** The content of the file with the given file id. *)
Definition file_content (w : World) (fid : string) : option string :=
  match list_find (fun n => issue_file_id n = fid) (seq 0 (length (uploads w))) with
  | Some (_, n) => uploads w !! n
  | None => None
  end.

(** *** Handlers running at the same time

    A handler advances by one event at a time; a schedule names the
    handler that advances next. *)

Definition step {A} (p : Prog A) (w : World) : Prog A * World :=
  match p with
  | Call c k => let '(r, w') := exec _ c w in (k r, w')
  | _ => (p, w)
  end.

Fixpoint interleave {A} (schedule : list nat) (pool : list (Prog A)) (w : World)
    : list (Prog A) * World :=
  match schedule with
  | [] => (pool, w)
  | i :: schedule' =>
      match pool !! i with
      | Some p => let '(p', w') := step p w in interleave schedule' (<[i := p']> pool) w'
      | None => interleave schedule' pool w
      end
  end.

(** The number of events a handler goes through when it runs alone. *)
Fixpoint events {A} (p : Prog A) (w : World) : nat :=
  match p with
  | Call c k => let '(r, w') := exec _ c w in S (events (k r) w')
  | _ => 0
  end.

(** How a finished handler looks in the pool. *)
Definition finished {A} (r : Exn + A) : Prog A :=
  match r with inl e => Throw e | inr a => Ret a end.

(** The answer's candidates are the pending one, if any, and then entries
    of the history, latest first. *)
Definition pending_first_then_history (file_ids : list string) (fresh : option string)
    (rs : list InlineQueryResultCachedSticker) : Prop :=
  exists hist : list string,
    sticker_file_id <$> rs = option_list fresh ++ hist /\ hist `sublist_of` reverse file_ids.


(** *** The rest of bot.py: handlers that only send

    [info] and [error] make their calls one after the other and use none
    of the answers; each is the list of its calls, in order, as made when
    none of them raises. *)

(** [InlineKeyboardMarkup.from_button(InlineKeyboardButton(...))] *)
Inductive InlineKeyboardButton :=
| SwitchInlineQueryButton (text switch_inline_query : string)
| UrlButton (text url : string).

Inductive Notice :=
| LoggedError (msg : string)
| Slept (seconds : Z)
| Replied (chat_id : Z) (text : string) (reply_markup : option InlineKeyboardButton)
| SentMessage (chat_id : Z) (text : string).

(** What [error] reads of the update it is given. *)
Record Chat := mkChat { username : option string }.
Record Poll := mkPoll { poll_id : string }.
Record Effective := mkEffective {
  effective_user : option User;
  effective_chat : option Chat;
  effective_message : option Z;
  poll : option Poll
}.

(** [context.error]: a [RetryAfter] with its whole number of seconds, or
    another exception with its [str] and its formatted traceback. *)
Inductive Failure :=
| RetryAfter (retry_after : Z)
| OtherFailure (str traceback : string).

Inductive Crash := UnboundLocalError.

(** [emojize(..., use_aliases=True)], [html.escape] and [mention_html] of
    the libraries, and [str(HyphenationError())] of the module [twitter]. *)
Record Library := mkLibrary {
  emojize : string -> string;
  html_escape : string -> string;
  mention_html : Z -> string -> string;
  hyphenation_error_text : string
}.

Definition HOMEPAGE : string := "https://hirschheissich.gitlab.io/twitter-status-bot/".

Definition newline : string := String "010"%char EmptyString.

Definition info (lib : Library) (chat_id : Z) (args : list string) : list Notice :=
  let '(text, keyboard) :=
    match args with
    | _ :: _ =>
        (hyphenation_error_text lib, SwitchInlineQueryButton "Try again" "")
    | [] =>
        (emojize lib ("I'm <b>Twitter Status Bot</b>. My profession is generating custom"
                  +:+ " stickers looking like tweets."
                  +:+ newline +:+ newline +:+ "To learn more about me, please visit my homepage "
                  +:+ ":slightly_smiling_face:."),
         UrlButton (emojize lib "Twitter Status Bot :robot_face:") HOMEPAGE)
    end in
  [Replied chat_id text (Some keyboard)].

(** [update] is [None] when what the dispatcher passes is not an [Update]. *)
Definition error (lib : Library) (update : option Effective) (err : Failure)
    : list Notice * option Crash :=
  let logged := [LoggedError "Exception while handling an update:"] in
  match err with
  | RetryAfter retry_after => (logged ++ [Slept (retry_after + 2)], None)
  | OtherFailure str trace =>
      let informed :=
        match update with
        | Some u =>
            match effective_message u with
            | Some chat_id =>
                [Replied chat_id
                   (emojize lib
                      "Something went wrong :worried:. I informed the admin :nerd_face:.")
                   None]
            | None => []
            end
        | None => []
        end in
      match update with
      | Some u =>
          let payload := "" in
          let payload :=
            match effective_user u with
            | Some user =>
                payload +:+ " with the user "
                +:+ mention_html lib (user_id user) (first_name user)
            | None => payload
            end in
          let payload :=
            match effective_chat u with
            | Some chat =>
                match username chat with
                | Some name =>
                    if truthy name then payload +:+ " (@" +:+ html_escape lib name +:+ ")"
                    else payload
                | None => payload
                end
            | None => payload
            end in
          let payload :=
            match poll u with
            | Some p => payload +:+ " with the poll id " +:+ poll_id p +:+ "."
            | None => payload
            end in
          let text :=
            "Hey." +:+ newline +:+ "The error <code>" +:+ html_escape lib str
            +:+ "</code> happened" +:+ payload +:+ ". The full traceback:"
            +:+ newline +:+ newline +:+ "<code>" +:+ html_escape lib trace +:+ "</code>" in
          (logged ++ informed ++ [SentMessage ADMIN text], None)
      | None => (logged ++ informed, Some UnboundLocalError)
      end
  end.

(** [isinstance(context.error, RetryAfter)] *)
Definition is_retry_after (err : Failure) : bool :=
  match err with
  | RetryAfter _ => true
  | OtherFailure _ _ => false
  end.

(** *** Notions for the properties of the handlers *)

(** The user an update comes from. *)
Definition sender (u : Update) : User :=
  match u with
  | TextMessage user _ _ => user
  | InlineQuery _ user _ => user
  | ChosenInlineResult user _ => user
  end.

(** Two platforms with the same sticker sets and the same files. *)
Definition same_files (a b : World) : Prop :=
  sticker_sets a = sticker_sets b /\ uploads a = uploads b.

(** What is published during a request, if anything. *)
Definition during (rendered : option string) (w : World) : World :=
  match rendered with
  | Some png => published png (trimmed (seeded w))
  | None => trimmed (seeded w)
  end.

(** The history of a user holds no file id twice, and only file ids the
    platform has issued; the pending references are issued too, are not in
    the history, and no two keys stand for the same one. *)
Definition tidy (w : World) (ud : UserData) : Prop :=
  NoDup (history ud) /\
  (forall fid, fid ∈ history ud -> fid ∈ issued w) /\
  (forall key fid, pending ud !! key = Some fid -> fid ∈ issued w /\ fid ∉ history ud) /\
  (forall k1 k2 fid, pending ud !! k1 = Some fid -> pending ud !! k2 = Some fid -> k1 = k2).

(** ** Running programs *)

Lemma run_on_bind {W A B} (h : forall R, Api R -> W -> (string + R) * W)
    (p : Prog A) (f : A -> Prog B) (w : W) :
  run_on h (bind p f) w =
  match run_on h p w with
  | (inl e, w') => (inl e, w')
  | (inr a, w') => run_on h (f a) w'
  end.
Proof.
  revert w. induction p as [a|e|R c k IH]; intros w; simpl; try reflexivity.
  destruct (h R c w) as [r w']. apply IH.
Qed.

Lemma run_on_catch {W A} (h : forall R, Api R -> W -> (string + R) * W)
    (p : Prog A) (handler : Exn -> Prog A) (w : W) :
  run_on h (catch p handler) w =
  match run_on h p w with
  | (inl e, w') => run_on h (handler e) w'
  | (inr a, w') => (inr a, w')
  end.
Proof.
  revert w. induction p as [a|e|R c k IH]; intros w; simpl; try reflexivity.
  destruct (h R c w) as [r w']. apply IH.
Qed.

Lemma run_on_call {W R} (h : forall R, Api R -> W -> (string + R) * W)
    (c : Api R) (w : W) :
  run_on h (call c) w =
  match h R c w with
  | (inl msg, w') => (inl (BadRequest msg), w')
  | (inr a, w') => (inr a, w')
  end.
Proof. unfold call. simpl. destruct (h R c w) as [[msg|a] w']; reflexivity. Qed.

Lemma run_bind {A B} (p : Prog A) (f : A -> Prog B) (w : World) :
  run (bind p f) w =
  match run p w with
  | (inl e, w') => (inl e, w')
  | (inr a, w') => run (f a) w'
  end.
Proof. apply run_on_bind. Qed.

Lemma run_catch {A} (p : Prog A) (h : Exn -> Prog A) (w : World) :
  run (catch p h) w =
  match run p w with
  | (inl e, w') => run (h e) w'
  | (inr a, w') => (inr a, w')
  end.
Proof. apply run_on_catch. Qed.

Lemma run_call {R} (c : Api R) (w : World) :
  run (call c) w =
  match exec R c w with
  | (inl msg, w') => (inl (BadRequest msg), w')
  | (inr a, w') => (inr a, w')
  end.
Proof. apply run_on_call. Qed.

Lemma run_ret {A} (a : A) (w : World) : run (Ret a) w = (inr a, w).
Proof. reflexivity. Qed.

Lemma run_throw {A} (e : Exn) (w : World) : run (@Throw A e) w = (inl e, w).
Proof. reflexivity. Qed.

Arguments bind : simpl never.
Arguments catch : simpl never.
Arguments run : simpl never.
Arguments contains : simpl never.

(** ** The collection functions *)

Lemma with_sticker_sets_id (w : World) : with_sticker_sets (sticker_sets w) w = w.
Proof. destruct w; reflexivity. Qed.

Lemma get_sticker_set_run (name : string) (w : World) :
  run (get_sticker_set name) w =
  (inr (mkStickerSet name (default [] (sticker_sets (seeded_at name w) !! name))),
   seeded_at name w).
Proof.
  unfold get_sticker_set, seeded_at. rewrite run_catch, run_call. simpl.
  destruct (sticker_sets w !! name) as [l|] eqn:E.
  - simpl. rewrite E. reflexivity.
  - change (contains "invalid" "Stickerset_invalid") with true. cbv iota.
    rewrite run_bind, run_call. simpl. rewrite E.
    rewrite run_call. simpl. rewrite lookup_insert_eq. reflexivity.
Qed.

Lemma delete_loop_run (l : list Sticker) (w : World) :
  run (for_each l (fun sticker =>
         catch (call (DeleteStickerFromSet (file_id sticker)))
           (fun e =>
              match e with
              | BadRequest msg =>
                  if contains "Stickerset_not_modified" msg then Ret tt else Throw e
              | _ => Throw e
              end))) w
  = (inr tt, remove_all l w).
Proof.
  revert w. induction l as [|s l IH]; intros w; cbn [for_each remove_all]; [reflexivity|].
  rewrite run_bind, run_catch, run_call. cbn [exec].
  destruct (decide _) as [Heq|Hne].
  - change (contains "Stickerset_not_modified" "Stickerset_not_modified") with true.
    cbv iota. rewrite run_ret, IH. f_equal. f_equal.
    unfold remove_sticker in *. simpl in Heq.
    unfold remove_sticker. rewrite Heq. symmetry. apply with_sticker_sets_id.
  - apply IH.
Qed.

Lemma tail_short {A} (l : list A) : (1 <? length l)%nat = false -> tail l = [].
Proof.
  destruct l as [|a [|b l]]; simpl; intros H; try reflexivity.
  apply Nat.ltb_ge in H. simpl in H. lia.
Qed.

Lemma seeded_collection (w : World) : is_Some (collection (seeded w)).
Proof.
  unfold seeded, seeded_at, collection.
  destruct (sticker_sets w !! build_sticker_set_name) eqn:E.
  - rewrite E. eauto.
  - simpl. rewrite lookup_insert_eq. eauto.
Qed.

Lemma clean_sticker_set_run (w : World) :
  run clean_sticker_set w = (inr tt, trimmed (seeded w)).
Proof.
  unfold clean_sticker_set. rewrite run_bind, get_sticker_set_run. fold seeded.
  unfold trimmed. destruct (seeded_collection w) as [l Hl].
  unfold collection in *. rewrite Hl. simpl.
  destruct (1 <? length l)%nat eqn:E.
  - apply delete_loop_run.
  - rewrite (tail_short l E). reflexivity.
Qed.

(** Deleting stickers touches nothing but the sticker sets. *)
Lemma remove_all_frame (l : list Sticker) (w : World) :
  uploads (remove_all l w) = uploads w /\
  expired_queries (remove_all l w) = expired_queries w /\
  outbox (remove_all l w) = outbox w /\
  all_user_data (remove_all l w) = all_user_data w /\
  drawn (remove_all l w) = drawn w.
Proof.
  revert w. induction l as [|s l IH]; intros w; simpl; [tauto|].
  destruct (IH (remove_sticker (file_id s) w)) as (-> & -> & -> & -> & ->).
  repeat split; reflexivity.
Qed.

Lemma filter_out_cons (fid : string) (ids : list string) (l : list Sticker) :
  filter (fun s => file_id s ∉ ids) (filter (fun s => file_id s <> fid) l)
  = filter (fun s => file_id s ∉ fid :: ids) l.
Proof.
  induction l as [|s l IH]; [reflexivity|].
  rewrite !filter_cons.
  destruct (decide (file_id s = fid)) as [Heq|Hne].
  - rewrite decide_False by tauto.
    rewrite decide_False by (rewrite Heq, not_elem_of_cons; tauto). apply IH.
  - rewrite decide_True by done. rewrite filter_cons, IH.
    destruct (decide (file_id s ∉ ids)) as [Hn|Hi].
    + rewrite decide_True by (rewrite not_elem_of_cons; tauto). reflexivity.
    + rewrite decide_False by (rewrite not_elem_of_cons; tauto). reflexivity.
Qed.

Lemma remove_all_lookup (l : list Sticker) (w : World) (name : string) :
  sticker_sets (remove_all l w) !! name
  = filter (fun s => file_id s ∉ (file_id <$> l)) <$> (sticker_sets w !! name).
Proof.
  revert w. induction l as [|s l IH]; intros w; simpl.
  - destruct (sticker_sets w !! name) as [ss|]; simpl; [|reflexivity].
    f_equal. induction ss as [|x ss IHs]; [reflexivity|].
    rewrite filter_cons. destruct (decide _) as [_|H]; [f_equal; exact IHs|].
    exfalso. apply H. simpl. apply not_elem_of_nil.
  - rewrite IH. simpl. rewrite lookup_fmap.
    destruct (sticker_sets w !! name) as [ss|]; simpl; [|reflexivity].
    f_equal. apply filter_out_cons.
Qed.

Lemma filter_out_all (l : list Sticker) (ids : list string) :
  (file_id <$> l) ⊆ ids -> filter (fun s => file_id s ∉ ids) l = [].
Proof.
  induction l as [|s l IH]; intros H; [reflexivity|].
  rewrite filter_cons. destruct (decide _) as [Hn|_].
  - exfalso. apply Hn. apply H. rewrite fmap_cons. apply elem_of_cons. by left.
  - apply IH. intros x Hx. apply H. rewrite fmap_cons. apply elem_of_cons. by right.
Qed.

Lemma trimmed_collection (w : World) (seed : Sticker) (rest : list Sticker) :
  collection w = Some (seed :: rest) ->
  NoDup (file_id <$> seed :: rest) ->
  collection (trimmed w) = Some [seed].
Proof.
  intros Hc Hnd. unfold trimmed. rewrite Hc. unfold collection in *. simpl.
  rewrite remove_all_lookup, Hc. simpl. f_equal.
  rewrite fmap_cons in Hnd. apply NoDup_cons in Hnd as [Hseed _].
  rewrite filter_cons. destruct (decide _) as [_|H]; [|contradiction].
  f_equal. apply filter_out_all. reflexivity.
Qed.

Lemma trimmed_collection_some (w : World) :
  is_Some (collection w) -> is_Some (collection (trimmed w)).
Proof.
  intros [l Hl]. unfold trimmed. rewrite Hl. unfold collection in *.
  rewrite remove_all_lookup, Hl. simpl. eauto.
Qed.

Lemma trimmed_frame (w : World) :
  uploads (trimmed w) = uploads w /\
  expired_queries (trimmed w) = expired_queries w /\
  outbox (trimmed w) = outbox w /\
  all_user_data (trimmed w) = all_user_data w /\
  drawn (trimmed w) = drawn w.
Proof.
  unfold trimmed. destruct (collection w); [apply remove_all_frame|tauto].
Qed.

Lemma seeded_id (w : World) : is_Some (collection w) -> seeded w = w.
Proof.
  intros [l Hl]. unfold seeded, seeded_at. unfold collection in Hl. by rewrite Hl.
Qed.

Lemma get_sticker_id_run (text : string) (user : User) (w : World) :
  run (get_sticker_id text user) w =
  match build_sticker text user with
  | inl msg => (inl (HyphenationError msg), trimmed (seeded w))
  | inr png => (inr (issue_file_id (length (uploads (trimmed (seeded w))))),
                published png (trimmed (seeded w)))
  end.
Proof.
  unfold get_sticker_id. rewrite run_bind, clean_sticker_set_run.
  destruct (build_sticker text user) as [msg|png]; [reflexivity|].
  pose proof (trimmed_collection_some _ (seeded_collection w)) as [l Hl].
  set (w1 := trimmed (seeded w)) in *.
  rewrite run_bind, get_sticker_set_run.
  assert (Hs : seeded_at build_sticker_set_name w1 = w1) by (apply seeded_id; eauto).
  rewrite Hs, run_bind, run_call. unfold collection in Hl. simpl. rewrite Hl.
  rewrite run_bind, get_sticker_set_run.
  unfold seeded_at, published, collection. rewrite Hl. simpl.
  rewrite !lookup_insert_eq. simpl. rewrite !lookup_insert_eq. simpl.
  rewrite last_snoc. reflexivity.
Qed.

Lemma issue_file_id_inj (n m : nat) : issue_file_id n = issue_file_id m -> n = m.
Proof.
  unfold issue_file_id. simpl. intros H. injection H as H. by apply (inj pretty).
Qed.

Lemma not_yet_issued (w : World) : issue_file_id (length (uploads w)) ∉ issued w.
Proof.
  unfold issued. intros H. apply list_elem_of_fmap in H as (k & Hk & Hin).
  apply issue_file_id_inj in Hk. subst k.
  apply elem_of_seq in Hin. lia.
Qed.

Lemma issued_mono (w w' : World) (png : string) :
  uploads w' = uploads w ++ [png] -> issued w ⊆ issued w'.
Proof.
  intros E. unfold issued. rewrite E, length_app. simpl.
  intros x Hx. apply list_elem_of_fmap in Hx as (k & -> & Hin).
  apply list_elem_of_fmap. exists k. split; [reflexivity|].
  apply elem_of_seq in Hin. apply elem_of_seq. lia.
Qed.

Lemma well_kept_inv (w : World) :
  well_kept w ->
  exists s rest, collection w = Some (s :: rest) /\
    NoDup (file_id <$> s :: rest) /\ (file_id <$> s :: rest) ⊆ issued w.
Proof.
  unfold well_kept. destruct (collection w) as [[|s rest]|]; try tauto.
  intros [H1 H2]. eauto.
Qed.

Lemma well_kept_seeded (w : World) : well_kept w -> seeded w = w.
Proof.
  intros H. apply well_kept_inv in H as (s & rest & Hc & _). apply seeded_id. eauto.
Qed.

Lemma well_kept_trimmed (w : World) :
  well_kept w ->
  well_kept (trimmed w) /\ seed (trimmed w) = seed w /\
  exists s, seed w = Some s /\ collection (trimmed w) = Some [s].
Proof.
  intros H. apply well_kept_inv in H as (s & rest & Hc & Hnd & Hsub).
  pose proof (trimmed_collection w s rest Hc Hnd) as Ht.
  unfold well_kept, seed. rewrite Ht, Hc. simpl. repeat split.
  - apply NoDup_singleton.
  - unfold issued. destruct (trimmed_frame w) as (-> & _).
    intros x Hx. apply Hsub. apply list_elem_of_singleton in Hx as ->.
    rewrite fmap_cons. apply elem_of_cons. by left.
  - eauto.
Qed.

Lemma well_kept_published (png : string) (w : World) (s : Sticker) :
  well_kept w -> collection w = Some [s] ->
  well_kept (published png w) /\
  collection (published png w)
  = Some [s; mkSticker (issue_file_id (length (uploads w))) bird].
Proof.
  intros H Hc. pose proof (not_yet_issued w) as Hnew.
  unfold well_kept in *. unfold published. rewrite Hc in *.
  unfold collection in *. simpl. rewrite lookup_insert_eq. simpl.
  destruct H as [Hnd Hsub]. simpl in *. repeat split.
  - apply NoDup_cons. split; [|apply NoDup_singleton].
    intros Hin. apply list_elem_of_singleton in Hin.
    apply Hnew. rewrite <- Hin. apply Hsub. apply list_elem_of_singleton. reflexivity.
  - intros x Hx. apply elem_of_cons in Hx as [->|Hx].
    + eapply (issued_mono w); [reflexivity|]. apply Hsub.
      apply list_elem_of_singleton. reflexivity.
    + apply list_elem_of_singleton in Hx as ->.
      unfold issued. simpl. rewrite length_app. simpl.
      apply list_elem_of_fmap. eexists. split; [reflexivity|].
      apply elem_of_seq. lia.
Qed.

(** One operation on a well-kept set: what it returns and what it leaves. *)
Lemma clean_sticker_set_kept (w : World) :
  well_kept w ->
  run clean_sticker_set w = (inr tt, trimmed w) /\
  well_kept (trimmed w) /\ seed (trimmed w) = seed w /\ collection_size (trimmed w) = 1.
Proof.
  intros H. rewrite clean_sticker_set_run, (well_kept_seeded w H).
  destruct (well_kept_trimmed w H) as (Hk & Hs & s & _ & Hc).
  repeat split; try assumption. unfold collection_size. by rewrite Hc.
Qed.

Lemma get_sticker_id_kept (text : string) (user : User) (w : World) :
  well_kept w ->
  let w' := snd (run (get_sticker_id text user) w) in
  well_kept w' /\ seed w' = seed w /\
  match build_sticker text user with
  | inl msg =>
      run (get_sticker_id text user) w = (inl (HyphenationError msg), trimmed w) /\
      collection_size w' = 1
  | inr png =>
      run (get_sticker_id text user) w
      = (inr (issue_file_id (length (uploads w))), published png (trimmed w)) /\
      collection_size w' = 2
  end.
Proof.
  intros H. rewrite get_sticker_id_run, (well_kept_seeded w H).
  destruct (well_kept_trimmed w H) as (Hk & Hs & s & Hseed & Hc).
  destruct (build_sticker text user) as [msg|png]; simpl.
  - repeat split; try assumption. unfold collection_size. by rewrite Hc.
  - destruct (well_kept_published png _ s Hk Hc) as [Hk' Hc'].
    destruct (trimmed_frame w) as (Hu & _). rewrite Hu in *.
    repeat split; try assumption.
    + unfold seed. rewrite Hc'. simpl. unfold seed in Hseed. by rewrite Hseed.
    + unfold collection_size. by rewrite Hc'.
Qed.

Lemma perform_kept (op : Op) (w : World) :
  well_kept w ->
  well_kept (perform op w) /\ seed (perform op w) = seed w /\
  (collection_size (perform op w) = 1 \/ collection_size (perform op w) = 2).
Proof.
  intros H. destruct op as [text user|]; simpl.
  - destruct (get_sticker_id_kept text user w H) as (Hk & Hs & Hr).
    repeat split; try assumption.
    destruct (build_sticker text user); destruct Hr as [_ Hr]; auto.
  - destruct (clean_sticker_set_kept w H) as (-> & Hk & Hs & Hsz). simpl. auto.
Qed.

Lemma well_kept_size (w : World) : well_kept w -> 1 <= collection_size w.
Proof.
  intros H. apply well_kept_inv in H as (s & rest & Hc & _).
  unfold collection_size. rewrite Hc. simpl. lia.
Qed.

Lemma states_kept (ops : list Op) (w : World) (s0 : option Sticker) :
  well_kept w -> collection_size w <= 2 -> seed w = s0 ->
  Forall (fun w' => (collection_size w' = 1 \/ collection_size w' = 2) /\ seed w' = s0)
         (states ops w).
Proof.
  revert w. induction ops as [|op ops IH]; intros w Hk Hsz Hs;
    pose proof (well_kept_size w Hk) as Hge; simpl.
  - constructor; [split; [lia|assumption]|constructor].
  - constructor; [split; [lia|assumption]|].
    destruct (perform_kept op w Hk) as (Hk' & Hs' & Hsz').
    apply IH; [assumption|lia|congruence].
Qed.

(** *** Between the calls of an operation *)

Lemma bind_call {A B R} (c : Api R) (k : string + R -> Prog A) (f : A -> Prog B) :
  bind (Call c k) f = Call c (fun r => bind (k r) f).
Proof. reflexivity. Qed.

Lemma catch_call {A R} (c : Api R) (k : string + R -> Prog A) (h : Exn -> Prog A) :
  catch (Call c k) h = Call c (fun r => catch (k r) h).
Proof. reflexivity. Qed.

Lemma trace_bind {A B} (p : Prog A) (f : A -> Prog B) (w : World) :
  trace (bind p f) w
  = trace p w ++ match run p w with
                 | (inr a, w') => trace (f a) w'
                 | (inl _, _) => []
                 end.
Proof.
  revert w. induction p as [a|e|R c k IH]; intros w; try reflexivity.
  rewrite bind_call. unfold run. cbn [trace run_on]. destruct (exec R c w) as [r w'].
  simpl. f_equal. apply IH.
Qed.

Lemma trace_catch {A} (p : Prog A) (h : Exn -> Prog A) (w : World) :
  trace (catch p h) w
  = trace p w ++ match run p w with
                 | (inl e, w') => trace (h e) w'
                 | (inr _, _) => []
                 end.
Proof.
  revert w. induction p as [a|e|R c k IH]; intros w; try reflexivity.
  rewrite catch_call. unfold run. cbn [trace run_on]. destruct (exec R c w) as [r w'].
  simpl. f_equal. apply IH.
Qed.

Lemma trace_call {R} (c : Api R) (w : World) : trace (call c) w = [snd (exec R c w)].
Proof. unfold call. simpl. by destruct (exec R c w) as [[msg|a] w']. Qed.

Lemma get_sticker_set_trace (w : World) :
  is_Some (collection w) -> trace (get_sticker_set build_sticker_set_name) w = [w].
Proof.
  intros [l Hl]. unfold get_sticker_set, collection in *.
  rewrite trace_catch, trace_call, run_call. simpl. by rewrite Hl.
Qed.

(** While the stickers [l] are deleted one by one, a set of at most two
    stickers whose first is not among them keeps one or two stickers. *)
Lemma delete_loop_trace (l : list Sticker) (w : World) (s : Sticker) (c : list Sticker) :
  collection w = Some (s :: c) -> file_id s ∉ (file_id <$> l) -> length c <= 1 ->
  Forall (fun w' => collection_size w' = 1 \/ collection_size w' = 2)
    (trace (for_each l (fun sticker =>
         catch (call (DeleteStickerFromSet (file_id sticker)))
           (fun e =>
              match e with
              | BadRequest msg =>
                  if contains "Stickerset_not_modified" msg then Ret tt else Throw e
              | _ => Throw e
              end))) w).
Proof.
  revert w c. induction l as [|x l IH]; intros w c Hc Hs Hlen; [constructor|].
  cbn [for_each]. rewrite fmap_cons in Hs. apply not_elem_of_cons in Hs as [Hx Hs].
  rewrite trace_bind, trace_catch, trace_call, run_catch, run_call. cbn [exec].
  set (w1 := remove_sticker (file_id x) w).
  assert (Hc1 : collection w1 = Some (s :: filter (fun y => file_id y <> file_id x) c)).
  { subst w1. unfold collection, remove_sticker in *. simpl.
    rewrite lookup_fmap, Hc. simpl. by rewrite filter_cons, decide_True. }
  assert (Hlen1 : length (filter (fun y => file_id y <> file_id x) c) <= 1).
  { etrans; [apply length_filter|exact Hlen]. }
  assert (Hinv : collection_size w1 = 1 \/ collection_size w1 = 2).
  { unfold collection_size. rewrite Hc1. simpl. lia. }
  destruct (decide _) as [Heq|Hne]; cbn [snd].
  - assert (Hw : w = w1).
    { subst w1. unfold remove_sticker in *. simpl in Heq. rewrite Heq.
      symmetry. apply with_sticker_sets_id. }
    change (contains "Stickerset_not_modified" "Stickerset_not_modified") with true.
    cbv iota. rewrite run_ret. simpl. rewrite Hw.
    constructor; [assumption|]. by eapply IH.
  - simpl. constructor; [assumption|]. by eapply IH.
Qed.

Lemma clean_sticker_set_trace (w : World) :
  well_kept w -> collection_size w <= 2 ->
  Forall (fun w' => collection_size w' = 1 \/ collection_size w' = 2) (trace clean_sticker_set w).
Proof.
  intros Hk Hsz. pose proof (well_kept_size w Hk) as Hge.
  destruct (well_kept_inv w Hk) as (s & rest & Hc & Hnd & _).
  unfold clean_sticker_set.
  rewrite trace_bind, get_sticker_set_trace, get_sticker_set_run by eauto.
  fold seeded. rewrite (well_kept_seeded w Hk). fold (collection w). rewrite Hc.
  cbn [stickers default fst snd]. simpl app.
  constructor; [lia|].
  destruct (_ <? _)%nat; [|constructor].
  rewrite fmap_cons in Hnd. apply NoDup_cons in Hnd as [Hs _].
  apply (delete_loop_trace rest w s rest Hc Hs).
  unfold collection_size in Hsz. rewrite Hc in Hsz. simpl in Hsz. lia.
Qed.

Lemma moments_of_kept (op : Op) (w : World) :
  well_kept w -> collection_size w <= 2 ->
  Forall (fun w' => collection_size w' = 1 \/ collection_size w' = 2) (moments_of op w).
Proof.
  intros Hk Hsz. destruct op as [text user|]; [|by apply clean_sticker_set_trace].
  cbn [moments_of]. unfold get_sticker_id.
  rewrite trace_bind. apply Forall_app. split; [by apply clean_sticker_set_trace|].
  destruct (clean_sticker_set_kept w Hk) as (-> & Hk1 & _ & Hsz1).
  destruct (build_sticker text user) as [msg|png]; [constructor|].
  destruct (well_kept_trimmed w Hk) as (_ & _ & s & _ & Hc1).
  destruct (well_kept_published png _ s Hk1 Hc1) as [_ Hc2].
  assert (Hsz2 : collection_size (published png (trimmed w)) = 2).
  { unfold collection_size. by rewrite Hc2. }
  rewrite trace_bind, get_sticker_set_trace, get_sticker_set_run by eauto.
  fold seeded. rewrite (seeded_id (trimmed w)) by eauto.
  rewrite trace_bind, trace_call, run_call. cbn [exec].
  unfold collection in Hc1. rewrite Hc1. cbn [snd].
  fold (collection (trimmed w)) in Hc1.
  change (upload build_sticker_set_name [s] bird png (trimmed w))
    with (match Some [s] with
          | Some l => upload build_sticker_set_name l bird png (trimmed w)
          | None => trimmed w
          end).
  rewrite <- Hc1. fold (published png (trimmed w)).
  rewrite trace_bind, get_sticker_set_trace, get_sticker_set_run by eauto.
  fold seeded. rewrite (seeded_id (published png (trimmed w))) by eauto.
  fold (collection (published png (trimmed w))). rewrite Hc2. simpl.
  repeat (apply Forall_cons_2; [by auto|]). apply Forall_nil_2.
Qed.

Lemma moments_kept (ops : list Op) (w : World) :
  well_kept w -> collection_size w <= 2 ->
  Forall (fun w' => collection_size w' = 1 \/ collection_size w' = 2) (moments ops w).
Proof.
  revert w. induction ops as [|op ops IH]; intros w Hk Hsz; [constructor|].
  cbn [moments]. apply Forall_app. split; [by apply moments_of_kept|].
  destruct (perform_kept op w Hk) as (Hk' & _ & Hsz'). apply IH; [assumption|lia].
Qed.

(** C1. Starting from a seeded collection (the set exists and holds one or
    two distinct stickers issued by the platform), the collection has one
    or two stickers before and after every operation of any sequence of
    publish ([get_sticker_id]) and trim ([clean_sticker_set]) operations,
    and its first sticker, the seed, stays the same; it also has one or two
    stickers after each single call these operations make to the platform.
    A trim succeeds and leaves exactly the seed; a publish leaves the seed
    followed by exactly one new sticker, with a file id not issued before,
    and returns that file id (when rendering fails it raises
    [HyphenationError] and leaves exactly the seed). *)
Theorem collection_size_1_or_2 (w : World) :
  well_kept w -> collection_size w <= 2 ->
  (forall ops : list Op,
     Forall (fun w' => (collection_size w' = 1 \/ collection_size w' = 2) /\ seed w' = seed w)
            (states ops w)) /\
  (forall ops : list Op,
     Forall (fun w' => collection_size w' = 1 \/ collection_size w' = 2) (moments ops w)) /\
  exists s : Sticker, seed w = Some s /\
    (run clean_sticker_set w = (inr tt, perform Trim w) /\
     collection (perform Trim w) = Some [s]) /\
    (forall text user,
       let new := mkSticker (issue_file_id (length (uploads w))) bird in
       (file_id new ∉ issued w) /\
       match build_sticker text user with
       | inr png =>
           run (get_sticker_id text user) w = (inr (file_id new), perform (Publish text user) w) /\
           collection (perform (Publish text user) w) = Some [s; new]
       | inl msg =>
           run (get_sticker_id text user) w
           = (inl (HyphenationError msg), perform (Publish text user) w) /\
           collection (perform (Publish text user) w) = Some [s]
       end).
Proof.
  intros Hk Hsz. split; [|split].
  - intros ops. by apply states_kept.
  - intros ops. by apply moments_kept.
  - destruct (well_kept_trimmed w Hk) as (Hk' & Hs & s & Hseed & Hc).
    exists s. split; [assumption|]. split.
    + simpl. destruct (clean_sticker_set_kept w Hk) as (-> & _). simpl. auto.
    + intros text user new. split; [apply not_yet_issued|].
      simpl. rewrite get_sticker_id_run, (well_kept_seeded w Hk).
      destruct (build_sticker text user) as [msg|png]; simpl; split; try reflexivity.
      * assumption.
      * destruct (trimmed_frame w) as (-> & _). reflexivity.
      * destruct (well_kept_published png _ s Hk' Hc) as [_ ->].
        destruct (trimmed_frame w) as (-> & _). reflexivity.
Qed.

(** ** The handlers *)

Lemma user_data_op_run {R} (uid : Z) (f : UserData -> R * UserData) (w : World) :
  run (call (UserDataOp uid f)) w = (inr (fst (f (user_data_of uid w))), on_user_data uid f w).
Proof.
  rewrite run_call. unfold on_user_data. simpl.
  destruct (f (user_data_of uid w)) as [r ud]. reflexivity.
Qed.

Lemma user_data_of_with (uid : Z) (ud : UserData) (w : World) :
  user_data_of uid (with_user_data uid ud w) = ud.
Proof. unfold user_data_of. simpl. by rewrite lookup_insert_eq. Qed.

Lemma user_data_of_with_ne (uid uid' : Z) (ud : UserData) (w : World) :
  uid <> uid' -> user_data_of uid' (with_user_data uid ud w) = user_data_of uid' w.
Proof. intros H. unfold user_data_of. simpl. by rewrite lookup_insert_ne. Qed.

Lemma with_user_data_twice (uid : Z) (a b : UserData) (w : World) :
  with_user_data uid b (with_user_data uid a w) = with_user_data uid b w.
Proof. unfold with_user_data. simpl. by rewrite insert_insert_eq. Qed.

Lemma handle_chosen_inline_result_run (user : User) (result_id : string) (w : World) :
  run (handle_chosen_inline_result user result_id) w =
  (inr tt,
   if startswith result_id "tweet" then w
   else with_user_data (user_id user)
          (chosen_effect result_id (user_data_of (user_id user) w)) w).
Proof.
  unfold handle_chosen_inline_result.
  destruct (startswith result_id "tweet"); [reflexivity|]. cbn [negb].
  rewrite run_bind, user_data_op_run, run_bind.
  unfold on_user_data, chosen_effect, pending, history, setdefault_TEMP_FILE_IDS.
  set (ud := user_data_of (user_id user) w).
  destruct ud as [fids [d|]]; simpl.
  - destruct (d !! result_id) as [fid|] eqn:Ed; [destruct (truthy fid)|];
      rewrite ?run_ret, !user_data_op_run; unfold on_user_data;
      rewrite !user_data_of_with, !with_user_data_twice;
      destruct fids; reflexivity.
  - rewrite lookup_empty, run_ret, !user_data_op_run. unfold on_user_data.
    rewrite !user_data_of_with, !with_user_data_twice. reflexivity.
Qed.

Lemma message_run (user : User) (chat_id : Z) (text : string) (w : World) :
  run (message user chat_id text) w = (inr tt, message_effect user chat_id text w).
Proof.
  unfold message, message_effect.
  rewrite run_bind, run_call. cbn [exec].
  fold (sent (SentChatAction (user_id user) "upload_photo") w).
  set (w1 := sent _ w).
  rewrite run_bind, run_catch, run_bind, get_sticker_id_run.
  destruct (build_sticker text user) as [msg|png].
  - rewrite run_call. cbn [exec]. apply clean_sticker_set_run.
  - rewrite run_bind, run_call. cbn [exec]. rewrite user_data_op_run.
    apply clean_sticker_set_run.
Qed.

Lemma inline_run (inline_query_id : string) (user : User) (query : string) (w : World) :
  run (inline inline_query_id user query) w
  = (inr tt, snd (inline_effect inline_query_id user query w)).
Proof.
  unfold inline, inline_effect.
  rewrite run_bind, user_data_op_run.
  set (w1 := on_user_data (user_id user) setdefault_FILE_IDS w).
  assert (Hh : fst (setdefault_FILE_IDS (user_data_of (user_id user) w))
               = history (user_data_of (user_id user) w)).
  { unfold setdefault_FILE_IDS, history. by destruct (FILE_IDS _). }
  rewrite Hh. fold (history_candidates (history (user_data_of (user_id user) w))).
  set (cands := history_candidates _).
  rewrite run_bind.
  assert (Hanswer : forall kwargs w2,
    run (catch (call (AnswerInlineQuery inline_query_id kwargs))
           (fun e => match e with
                     | BadRequest msg =>
                         if contains "Query is too old" msg then Ret tt else Throw e
                     | _ => Throw e
                     end);; clean_sticker_set)%prog w2
    = (inr tt, trimmed (seeded
         (if bool_decide (inline_query_id ∈ expired_queries w2) then w2
          else sent (SentAnswer inline_query_id kwargs) w2)))).
  { intros kwargs w2. rewrite run_bind, run_catch, run_call. cbn [exec].
    destruct (bool_decide _).
    - change (contains "Query is too old" _) with true. cbv iota.
      rewrite run_ret. apply clean_sticker_set_run.
    - apply clean_sticker_set_run. }
  destruct (truthy query).
  - rewrite run_catch, run_bind, get_sticker_id_run.
    destruct (build_sticker query user) as [msg|png].
    + rewrite run_ret. cbn [snd]. apply Hanswer.
    + rewrite run_bind, run_call. cbn [exec]. rewrite run_bind, user_data_op_run, run_ret.
      cbn [snd results switch_pm_text switch_pm_parameter]. apply Hanswer.
  - rewrite run_ret. cbn [snd]. apply Hanswer.
Qed.

(** ** What each step leaves untouched *)

Lemma seeded_frame (w : World) :
  expired_queries (seeded w) = expired_queries w /\
  outbox (seeded w) = outbox w /\
  all_user_data (seeded w) = all_user_data w /\
  drawn (seeded w) = drawn w.
Proof.
  unfold seeded, seeded_at. destruct (sticker_sets w !! _); repeat split; reflexivity.
Qed.

Lemma published_frame (png : string) (w : World) :
  expired_queries (published png w) = expired_queries w /\
  outbox (published png w) = outbox w /\
  all_user_data (published png w) = all_user_data w /\
  drawn (published png w) = drawn w.
Proof.
  unfold published. destruct (collection w); repeat split; reflexivity.
Qed.

Lemma user_data_of_trimmed uid w : user_data_of uid (trimmed w) = user_data_of uid w.
Proof. unfold user_data_of. by destruct (trimmed_frame w) as (_ & _ & _ & -> & _). Qed.

Lemma user_data_of_seeded uid w : user_data_of uid (seeded w) = user_data_of uid w.
Proof. unfold user_data_of. by destruct (seeded_frame w) as (_ & _ & -> & _). Qed.

Lemma user_data_of_published uid png w :
  user_data_of uid (published png w) = user_data_of uid w.
Proof. unfold user_data_of. by destruct (published_frame png w) as (_ & _ & -> & _). Qed.

Lemma user_data_of_sent uid x w : user_data_of uid (sent x w) = user_data_of uid w.
Proof. reflexivity. Qed.

Lemma user_data_of_drew uid w : user_data_of uid (drew w) = user_data_of uid w.
Proof. reflexivity. Qed.

Lemma user_data_of_on {R} uid (f : UserData -> R * UserData) w :
  user_data_of uid (on_user_data uid f w) = snd (f (user_data_of uid w)).
Proof. apply user_data_of_with. Qed.

Lemma user_data_of_on_ne {R} uid uid' (f : UserData -> R * UserData) w :
  uid <> uid' -> user_data_of uid' (on_user_data uid f w) = user_data_of uid' w.
Proof. apply user_data_of_with_ne. Qed.

Lemma outbox_trimmed w : outbox (trimmed w) = outbox w.
Proof. by destruct (trimmed_frame w) as (_ & _ & -> & _). Qed.

Lemma outbox_seeded w : outbox (seeded w) = outbox w.
Proof. by destruct (seeded_frame w) as (_ & -> & _). Qed.

Lemma outbox_published png w : outbox (published png w) = outbox w.
Proof. by destruct (published_frame png w) as (_ & -> & _). Qed.

Lemma outbox_sent x w : outbox (sent x w) = outbox w ++ [x].
Proof. reflexivity. Qed.

Lemma outbox_drew w : outbox (drew w) = outbox w.
Proof. reflexivity. Qed.

Lemma outbox_on {R} uid (f : UserData -> R * UserData) w :
  outbox (on_user_data uid f w) = outbox w.
Proof. reflexivity. Qed.

Lemma expired_trimmed w : expired_queries (trimmed w) = expired_queries w.
Proof. by destruct (trimmed_frame w) as (_ & -> & _). Qed.

Lemma expired_seeded w : expired_queries (seeded w) = expired_queries w.
Proof. by destruct (seeded_frame w) as (-> & _). Qed.

Lemma expired_published png w : expired_queries (published png w) = expired_queries w.
Proof. by destruct (published_frame png w) as (-> & _). Qed.

Lemma expired_on {R} uid (f : UserData -> R * UserData) w :
  expired_queries (on_user_data uid f w) = expired_queries w.
Proof. reflexivity. Qed.

Lemma expired_drew w : expired_queries (drew w) = expired_queries w.
Proof. reflexivity. Qed.

Lemma expired_sent x w : expired_queries (sent x w) = expired_queries w.
Proof. reflexivity. Qed.

Lemma drawn_trimmed w : drawn (trimmed w) = drawn w.
Proof. by destruct (trimmed_frame w) as (_ & _ & _ & _ & ->). Qed.

Lemma drawn_seeded w : drawn (seeded w) = drawn w.
Proof. by destruct (seeded_frame w) as (_ & _ & _ & ->). Qed.

Lemma drawn_published png w : drawn (published png w) = drawn w.
Proof. by destruct (published_frame png w) as (_ & _ & _ & ->). Qed.

Lemma drawn_sent x w : drawn (sent x w) = drawn w.
Proof. reflexivity. Qed.

Lemma drawn_on {R} uid (f : UserData -> R * UserData) w :
  drawn (on_user_data uid f w) = drawn w.
Proof. reflexivity. Qed.

Lemma drawn_drew w : drawn (drew w) = S (drawn w).
Proof. reflexivity. Qed.

Lemma uploads_trimmed w : uploads (trimmed w) = uploads w.
Proof. by destruct (trimmed_frame w) as (-> & _). Qed.

Lemma uploads_sent x w : uploads (sent x w) = uploads w.
Proof. reflexivity. Qed.

Lemma uploads_drew w : uploads (drew w) = uploads w.
Proof. reflexivity. Qed.

Lemma uploads_on {R} uid (f : UserData -> R * UserData) w :
  uploads (on_user_data uid f w) = uploads w.
Proof. reflexivity. Qed.

Lemma sticker_sets_sent x w : sticker_sets (sent x w) = sticker_sets w.
Proof. reflexivity. Qed.

Lemma sticker_sets_drew w : sticker_sets (drew w) = sticker_sets w.
Proof. reflexivity. Qed.

Lemma sticker_sets_on {R} uid (f : UserData -> R * UserData) w :
  sticker_sets (on_user_data uid f w) = sticker_sets w.
Proof. reflexivity. Qed.

Lemma collection_sent x w : collection (sent x w) = collection w.
Proof. reflexivity. Qed.

Lemma collection_drew w : collection (drew w) = collection w.
Proof. reflexivity. Qed.

Lemma collection_on {R} uid (f : UserData -> R * UserData) w :
  collection (on_user_data uid f w) = collection w.
Proof. reflexivity. Qed.

Lemma uploads_published png w :
  is_Some (collection w) -> uploads (published png w) = uploads w ++ [png].
Proof. intros [l Hl]. unfold published. by rewrite Hl. Qed.

Lemma seeded_seeded w : seeded (seeded w) = seeded w.
Proof. apply seeded_id, seeded_collection. Qed.

Lemma seeded_trimmed w : is_Some (collection w) -> seeded (trimmed w) = trimmed w.
Proof. intros H. by apply seeded_id, trimmed_collection_some. Qed.

Create Rewrite HintDb frame.

Hint Rewrite user_data_of_trimmed user_data_of_seeded user_data_of_published
  user_data_of_sent user_data_of_drew @user_data_of_on
  outbox_trimmed outbox_seeded outbox_published outbox_sent outbox_drew @outbox_on
  expired_trimmed expired_seeded expired_published @expired_on expired_drew expired_sent
  drawn_trimmed drawn_seeded drawn_published drawn_sent @drawn_on drawn_drew
  uploads_trimmed uploads_sent uploads_drew @uploads_on
  collection_sent collection_drew @collection_on : frame.

Lemma seeded_on {R} uid (f : UserData -> R * UserData) w :
  seeded (on_user_data uid f w) = on_user_data uid f (seeded w).
Proof.
  unfold seeded, seeded_at. simpl. by destruct (sticker_sets w !! _).
Qed.

Lemma seeded_sent x w : seeded (sent x w) = sent x (seeded w).
Proof.
  unfold seeded, seeded_at. simpl. by destruct (sticker_sets w !! _).
Qed.

Lemma issue_file_id_truthy (n : nat) : truthy (issue_file_id n) = true.
Proof. reflexivity. Qed.

Lemma store_after_setdefault (key fid : string) (ud : UserData) :
  snd (store_TEMP_FILE_IDS key fid (snd (setdefault_FILE_IDS ud)))
  = mkUserData (Some (history ud)) (Some (<[key := fid]> (pending ud))).
Proof. by destruct ud as [[l|] [d|]]. Qed.

Lemma setdefault_FILE_IDS_keeps (ud : UserData) :
  history (snd (setdefault_FILE_IDS ud)) = history ud /\
  TEMP_FILE_IDS (snd (setdefault_FILE_IDS ud)) = TEMP_FILE_IDS ud.
Proof. by destruct ud as [[l|] d]. Qed.

(** [inline] on a text that renders. *)
Lemma inline_effect_rendered qid user query png w :
  truthy query = true -> build_sticker query user = inr png ->
  let uid := user_id user in
  let key := uuid4 (drawn w) in
  let fid := issue_file_id (length (uploads (seeded w))) in
  let kwargs := mkKwargs (mkCachedSticker key fid
                            :: history_candidates (history (user_data_of uid w)))
                         None None in
  let w' := snd (inline_effect qid user query w) in
  fst (inline_effect qid user query w) = kwargs /\
  user_data_of uid w'
  = mkUserData (Some (history (user_data_of uid w)))
               (Some (<[key := fid]> (pending (user_data_of uid w)))) /\
  (forall uid', uid <> uid' -> user_data_of uid' w' = user_data_of uid' w) /\
  drawn w' = S (drawn w) /\
  uploads w' = uploads (seeded w) ++ [png] /\
  expired_queries w' = expired_queries w /\
  outbox w' = outbox w ++ (if bool_decide (qid ∈ expired_queries w) then []
                           else [SentAnswer qid kwargs]) /\
  is_Some (collection w').
Proof.
  intros Ht Hb uid key fid kwargs w'.
  subst w'. unfold inline_effect. rewrite Ht, Hb. cbn zeta beta iota.
  fold uid. autorewrite with frame.
  rewrite seeded_on, uploads_on. fold fid key. fold kwargs.
  set (w1 := published png (trimmed (on_user_data uid setdefault_FILE_IDS (seeded w)))).
  assert (Hc1 : is_Some (collection w1)).
  { subst w1. unfold published.
    assert (Hs : is_Some (collection (trimmed (on_user_data uid setdefault_FILE_IDS (seeded w))))).
    { apply trimmed_collection_some. rewrite collection_on. apply seeded_collection. }
    destruct Hs as [l Hl]. rewrite Hl. unfold collection. simpl.
    rewrite lookup_insert_eq. eauto. }
  assert (Hup : uploads w1 = uploads (seeded w) ++ [png]).
  { subst w1. rewrite uploads_published.
    - by autorewrite with frame.
    - apply trimmed_collection_some. rewrite collection_on. apply seeded_collection. }
  assert (Hud1 : user_data_of uid w1 = snd (setdefault_FILE_IDS (user_data_of uid w))).
  { subst w1. by autorewrite with frame. }
  assert (Hne1 : forall uid', uid <> uid' -> user_data_of uid' w1 = user_data_of uid' w).
  { intros uid' Hne. subst w1. autorewrite with frame.
    rewrite user_data_of_on_ne by done. by autorewrite with frame. }
  assert (Hrest : drawn w1 = drawn w /\ expired_queries w1 = expired_queries w /\
                  outbox w1 = outbox w).
  { subst w1. by autorewrite with frame. }
  destruct Hrest as (Hd1 & He1 & Ho1).
  clearbody w1.
  set (w2 := on_user_data uid (store_TEMP_FILE_IDS key fid) (drew w1)).
  assert (Hc2 : is_Some (collection w2)) by (subst w2; by autorewrite with frame).
  cbn [fst snd]. split; [reflexivity|].
  destruct (bool_decide (qid ∈ expired_queries w));
    rewrite ?seeded_sent, (seeded_id w2 Hc2); autorewrite with frame.
  all: subst w2; autorewrite with frame.
  all: rewrite Hud1, Hd1, He1, Ho1, Hup, ?app_nil_r.
  all: repeat split; try apply store_after_setdefault.
  all: try (intros uid' Hne; autorewrite with frame;
            rewrite user_data_of_on_ne by done; autorewrite with frame; by apply Hne1).
  all: apply trimmed_collection_some; by autorewrite with frame.
Qed.

(** ** Trimming commutes with what does not touch the sticker sets *)

Lemma remove_all_sent l x w : remove_all l (sent x w) = sent x (remove_all l w).
Proof. revert w. induction l as [|s l IH]; intros w; [reflexivity|]. simpl. by rewrite <- IH. Qed.

Lemma remove_all_on {R} l uid (f : UserData -> R * UserData) w :
  remove_all l (on_user_data uid f w) = on_user_data uid f (remove_all l w).
Proof. revert w. induction l as [|s l IH]; intros w; [reflexivity|]. simpl. by rewrite <- IH. Qed.

Lemma trimmed_sent x w : trimmed (sent x w) = sent x (trimmed w).
Proof.
  unfold trimmed. rewrite collection_sent.
  destruct (collection w); [apply remove_all_sent|reflexivity].
Qed.

Lemma trimmed_on {R} uid (f : UserData -> R * UserData) w :
  trimmed (on_user_data uid f w) = on_user_data uid f (trimmed w).
Proof.
  unfold trimmed. rewrite collection_on.
  destruct (collection w); [apply remove_all_on|reflexivity].
Qed.

Lemma trimmed_idem w : trimmed (trimmed w) = trimmed w.
Proof.
  destruct (collection w) as [l|] eqn:E.
  - assert (Hc : collection (trimmed w)
                 = Some (filter (fun s => file_id s ∉ (file_id <$> tail l)) l)).
    { unfold trimmed, collection in *. by rewrite E, remove_all_lookup, E. }
    unfold trimmed at 1. rewrite Hc.
    assert (Ht : tail (filter (fun s => file_id s ∉ (file_id <$> tail l)) l) = []).
    { destruct l as [|s l]; [reflexivity|]. simpl tail.
      rewrite filter_cons. rewrite (filter_out_all l) by reflexivity.
      by destruct (decide _). }
    by rewrite Ht.
  - assert (Ht : trimmed w = w) by (unfold trimmed; by rewrite E).
    by rewrite !Ht.
Qed.

Lemma clean_twice w : trimmed (seeded (trimmed (seeded w))) = trimmed (seeded w).
Proof.
  rewrite seeded_trimmed by apply seeded_collection. apply trimmed_idem.
Qed.

(** [inline] on an empty query, and on a text that does not render: the
    platform is trimmed, the answer delivered unless the query has expired,
    and the history key set; nothing else happens. *)
Lemma inline_effect_no_sticker qid user query w :
  truthy query = false \/ (exists msg, build_sticker query user = inl msg) ->
  let uid := user_id user in
  let kwargs :=
    if truthy query then mkKwargs [] (Some "Click me!") (Some "hyphenation_error")
    else mkKwargs (history_candidates (history (user_data_of uid w))) None None in
  let w1 := on_user_data uid setdefault_FILE_IDS (trimmed (seeded w)) in
  inline_effect qid user query w
  = (kwargs, if bool_decide (qid ∈ expired_queries w) then w1
             else sent (SentAnswer qid kwargs) w1).
Proof.
  intros H uid kwargs w1. unfold inline_effect. fold uid.
  assert (Hx : forall w0, trimmed (seeded
             (if bool_decide (qid ∈ expired_queries w) then trimmed (seeded w0)
              else sent (SentAnswer qid kwargs) (trimmed (seeded w0))))
           = if bool_decide (qid ∈ expired_queries w) then trimmed (seeded w0)
             else sent (SentAnswer qid kwargs) (trimmed (seeded w0))).
  { intros w0. destruct (bool_decide _);
      rewrite ?seeded_sent, ?trimmed_sent; by rewrite clean_twice. }
  subst kwargs w1. destruct (truthy query).
  - destruct H as [H|[msg H]]; [discriminate|]. rewrite H. cbn zeta beta iota.
    autorewrite with frame. rewrite Hx.
    by rewrite seeded_on, trimmed_on.
  - cbn zeta beta iota. autorewrite with frame.
    f_equal. destruct (bool_decide _);
      by rewrite ?seeded_sent, ?trimmed_sent, seeded_on, trimmed_on.
Qed.

(** [message] on a text that does not render. *)
Lemma message_effect_failed user chat_id text msg w :
  build_sticker text user = inl msg ->
  message_effect user chat_id text w
  = sent (SentText chat_id msg)
      (sent (SentChatAction (user_id user) "upload_photo") (trimmed (seeded w))).
Proof.
  intros H. unfold message_effect. rewrite H.
  repeat rewrite ?seeded_sent, ?trimmed_sent. by rewrite clean_twice.
Qed.

(** ** Result ids *)

Lemma matches_hex_head (pattern : string) (c : Ascii.ascii) (s : string) :
  matches (String "x" pattern) (String c s) = true -> is_hex c = true.
Proof.
  cbn [matches]. rewrite decide_True by reflexivity.
  intros H. by apply andb_true_iff in H as [H _].
Qed.

Lemma uuid4_not_tweet (s : string) : is_uuid4 s = true -> startswith s "tweet" = false.
Proof.
  destruct s as [|c s]; [discriminate|].
  unfold is_uuid4. intros H. apply matches_hex_head in H.
  unfold startswith. cbn [String.prefix].
  destruct (Ascii.ascii_dec "t" c) as [<-|]; [discriminate|reflexivity].
Qed.

Lemma tweet_id_startswith (i : nat) : startswith ("tweet " +:+ pretty i) "tweet" = true.
Proof. reflexivity. Qed.

Lemma history_candidates_lookup (file_ids : list string) (i : nat) :
  history_candidates file_ids !! i
  = mkCachedSticker ("tweet " +:+ pretty i) <$> reverse file_ids !! i.
Proof. unfold history_candidates. by rewrite list_lookup_imap. Qed.

Lemma history_candidates_files (file_ids : list string) :
  sticker_file_id <$> history_candidates file_ids = reverse file_ids.
Proof.
  apply list_eq. intros i. rewrite list_lookup_fmap, history_candidates_lookup.
  by destruct (reverse file_ids !! i).
Qed.

Lemma history_candidates_ids (file_ids : list string) :
  Forall (fun c => startswith (id c) "tweet" = true /\ sticker_file_id c ∈ file_ids)
         (history_candidates file_ids).
Proof.
  apply Forall_lookup. intros i c. rewrite history_candidates_lookup.
  destruct (reverse file_ids !! i) as [fid|] eqn:E; [|discriminate].
  intros [= <-]. split; [reflexivity|]. simpl.
  apply elem_of_reverse. by eapply list_elem_of_lookup_2.
Qed.

Lemma file_content_issued (w : World) (n : nat) :
  file_content w (issue_file_id n) = uploads w !! n.
Proof.
  unfold file_content.
  destruct (list_find _ _) as [[i k]|] eqn:E.
  - apply list_find_Some in E as (_ & Hk & _). apply issue_file_id_inj in Hk. by subst.
  - apply list_find_None in E. symmetry. apply lookup_ge_None.
    destruct (decide (length (uploads w) <= n)) as [|Hlt]; [assumption|].
    exfalso. rewrite Forall_forall in E. apply (E n); [|reflexivity].
    apply elem_of_seq. lia.
Qed.

(** ** The sessions stay in order *)

Lemma session_ok_empty (ud : UserData) : pending ud = ∅ -> session_ok ud.
Proof. intros H. unfold session_ok. rewrite H. apply map_Forall_empty. Qed.

Lemma session_ok_same (ud ud' : UserData) :
  pending ud' = pending ud -> session_ok ud -> session_ok ud'.
Proof. unfold session_ok. by intros ->. Qed.

Lemma message_pending user chat_id text w uid :
  pending (user_data_of uid (message_effect user chat_id text w))
  = pending (user_data_of uid w).
Proof.
  unfold message_effect. autorewrite with frame.
  destruct (build_sticker text user) as [msg|png]; autorewrite with frame; [reflexivity|].
  destruct (decide (user_id user = uid)) as [<-|Hne].
  - autorewrite with frame.
    unfold append_FILE_IDS, setdefault_FILE_IDS, pending.
    by destruct (FILE_IDS _).
  - rewrite user_data_of_on_ne by done. by autorewrite with frame.
Qed.

Lemma inline_pending qid user query w uid :
  (forall n, is_uuid4 (uuid4 n) = true) ->
  session_ok (user_data_of uid w) ->
  session_ok (user_data_of uid (snd (inline_effect qid user query w))).
Proof.
  intros Hu Hok.
  destruct (truthy query) eqn:Ht; [destruct (build_sticker query user) as [msg|png] eqn:Hb|].
  2: { destruct (inline_effect_rendered qid user query png w Ht Hb)
         as (_ & Hud & Hne & _).
       destruct (decide (user_id user = uid)) as [<-|Hn].
       - rewrite Hud. unfold session_ok, pending at 1. simpl.
         apply map_Forall_insert_2; [|exact Hok].
         split; [apply Hu|apply issue_file_id_truthy].
       - by rewrite Hne. }
  all: rewrite inline_effect_no_sticker by eauto; cbn [snd].
  all: eapply session_ok_same; [|exact Hok].
  all: destruct (bool_decide _); autorewrite with frame.
  all: destruct (decide (user_id user = uid)) as [<-|Hn];
       [autorewrite with frame; unfold pending;
        by destruct (setdefault_FILE_IDS_keeps (user_data_of (user_id user) w)) as [_ ->]
       |rewrite user_data_of_on_ne by done; by autorewrite with frame].
Qed.

Lemma chosen_pending user result_id w uid :
  session_ok (user_data_of uid w) ->
  session_ok (user_data_of uid
    (if startswith result_id "tweet" then w
     else with_user_data (user_id user)
            (chosen_effect result_id (user_data_of (user_id user) w)) w)).
Proof.
  intros Hok. destruct (startswith result_id "tweet"); [assumption|].
  destruct (decide (user_id user = uid)) as [<-|Hn].
  - rewrite user_data_of_with. by apply session_ok_empty.
  - by rewrite user_data_of_with_ne.
Qed.

Lemma sessions_ok_reachable (w : World) :
  (forall n, is_uuid4 (uuid4 n) = true) -> reachable w -> sessions_ok w.
Proof.
  intros Hu Hr. induction Hr as [w H0|w u Hr IH]; intros uid.
  - apply session_ok_empty. unfold user_data_of. by rewrite H0, lookup_empty.
  - destruct u as [user chat_id text|qid user query|user result_id]; simpl.
    + rewrite message_run. simpl. eapply session_ok_same; [apply message_pending|apply IH].
    + rewrite inline_run. simpl. by apply inline_pending.
    + rewrite handle_chosen_inline_result_run. simpl. by apply chosen_pending.
Qed.

(** ** The chosen result *)

Lemma history_mk (l : list string) (d : option (gmap string string)) :
  history (mkUserData (Some l) d) = l.
Proof. reflexivity. Qed.

Lemma pending_mk (l : option (list string)) (d : gmap string string) :
  pending (mkUserData l (Some d)) = d.
Proof. reflexivity. Qed.

(** C4. In every state the bot can reach (UUIDs having the format of
    [str(uuid4())]), when the result id of a chosen-result notification is a
    key of the user's pending selections, the handler returns, the pending
    reference is appended to the user's history, which gets longer by exactly
    one with that reference last, and the pending selections are cleared;
    the data of the other users stays as it is. *)
Theorem chosen_result_promotes_pending (w : World) (user : User) (key fid : string) :
  (forall n, is_uuid4 (uuid4 n) = true) ->
  reachable w ->
  pending (user_data_of (user_id user) w) !! key = Some fid ->
  let w' := snd (run (handle_chosen_inline_result user key) w) in
  fst (run (handle_chosen_inline_result user key) w) = inr tt /\
  history (user_data_of (user_id user) w') = history (user_data_of (user_id user) w) ++ [fid] /\
  length (history (user_data_of (user_id user) w'))
  = S (length (history (user_data_of (user_id user) w))) /\
  last (history (user_data_of (user_id user) w')) = Some fid /\
  pending (user_data_of (user_id user) w') = ∅ /\
  (forall uid', user_id user <> uid' -> user_data_of uid' w' = user_data_of uid' w).
Proof.
  intros Hu Hr Hp w'. subst w'.
  destruct (sessions_ok_reachable w Hu Hr (user_id user) key fid Hp) as [Hk Hf].
  rewrite handle_chosen_inline_result_run, (uuid4_not_tweet key Hk). cbn [fst snd].
  rewrite user_data_of_with. unfold chosen_effect.
  rewrite Hp, Hf, !history_mk, pending_mk.
  repeat split.
  - rewrite length_app. simpl. lia.
  - apply last_snoc.
  - intros uid' Hne. by apply user_data_of_with_ne.
Qed.

(** C6, as the code has it.  A chosen-result notification whose result id
    starts with [tweet], a history candidate, changes nothing at all: nothing
    is appended to the history and the pending selections stay as they are.
    One whose result id does not start with [tweet] and is not a pending key
    leaves the history as it is and clears the pending selections. *)
Theorem history_pick_keeps_pending (w : World) (user : User) (result_id : string) :
  (startswith result_id "tweet" = true ->
   run (handle_chosen_inline_result user result_id) w = (inr tt, w)) /\
  (startswith result_id "tweet" = false ->
   pending (user_data_of (user_id user) w) !! result_id = None ->
   let w' := snd (run (handle_chosen_inline_result user result_id) w) in
   fst (run (handle_chosen_inline_result user result_id) w) = inr tt /\
   FILE_IDS (user_data_of (user_id user) w') = FILE_IDS (user_data_of (user_id user) w) /\
   pending (user_data_of (user_id user) w') = ∅).
Proof.
  rewrite handle_chosen_inline_result_run. split; intros Hs.
  - by rewrite Hs.
  - intros Hp. rewrite Hs. cbn [fst snd]. rewrite user_data_of_with.
    unfold chosen_effect. by rewrite Hp.
Qed.

(** The candidates of the answer of [inline], when it is delivered. *)
Lemma inline_answer qid user query w :
  qid ∉ expired_queries w ->
  outbox (snd (inline_effect qid user query w))
  = outbox w ++ [SentAnswer qid (fst (inline_effect qid user query w))].
Proof.
  intros Hq. apply (bool_decide_eq_false_2 _) in Hq.
  destruct (truthy query) eqn:Ht; [destruct (build_sticker query user) as [msg|png] eqn:Hb|].
  2: { destruct (inline_effect_rendered qid user query png w Ht Hb)
         as (-> & _ & _ & _ & _ & _ & -> & _). by rewrite Hq. }
  all: rewrite inline_effect_no_sticker by eauto; cbn [fst snd].
  all: rewrite Hq; by autorewrite with frame.
Qed.

(** C10. The ids of the two kinds of candidates never meet.  An id made
    for a history candidate starts with [tweet]; a UUID does not.  The
    delivered answer of [inline] is, for a text that renders, the fresh
    candidate under the UUID just drawn, which is a pending key of the user
    for the sticker just published, followed by the history candidates;
    for an empty query the history candidates alone; and nothing when the
    rendering fails.  The history candidates are one per entry of the
    history, and the one at position [i] has the id [tweet i] and the
    [i]-th latest entry.  So in a delivered answer every candidate either
    has an id starting with [tweet] and offers a sticker of the history, or
    has an id that does not start with [tweet] and is, with its sticker, a
    pending selection of the user, and the test of
    [handle_chosen_inline_result] tells them apart: on an id starting with
    [tweet] nothing changes (a history pick is never promoted), on any
    other id the history grows by what the pending selections hold for it,
    if that is a non-empty file id, and by nothing otherwise. *)
Theorem candidate_ids_are_disjoint (w : World) (qid : string) (user : User) (query : string) :
  (forall n, is_uuid4 (uuid4 n) = true) ->
  qid ∉ expired_queries w ->
  let uid := user_id user in
  let w' := snd (run (inline qid user query) w) in
  let h := history (user_data_of uid w) in
  let key := uuid4 (drawn w) in
  let fid := issue_file_id (length (uploads (seeded w))) in
  (forall i : nat, startswith ("tweet " +:+ pretty i) "tweet" = true) /\
  (forall key : string, is_uuid4 key = true -> startswith key "tweet" = false) /\
  (exists kwargs,
     outbox w' = outbox w ++ [SentAnswer qid kwargs] /\
     Forall (fun c =>
               (startswith (id c) "tweet" = true /\
                sticker_file_id c ∈ history (user_data_of uid w)) \/
               (startswith (id c) "tweet" = false /\ is_uuid4 (id c) = true /\
                pending (user_data_of uid w') !! id c = Some (sticker_file_id c)))
            (results kwargs) /\
     (exists cands,
        results kwargs
        = (if truthy query then
             match build_sticker query user with
             | inr _ => mkCachedSticker key fid :: cands
             | inl _ => []
             end
           else cands) /\
        length cands = length h /\
        (forall i, cands !! i
                   = (fun sticker_id => mkCachedSticker ("tweet " +:+ pretty i) sticker_id)
                       <$> reverse h !! i)) /\
     (forall png, truthy query = true -> build_sticker query user = inr png ->
        is_uuid4 key = true /\ startswith key "tweet" = false /\
        pending (user_data_of uid w') !! key = Some fid)) /\
  (forall result_id w0,
     let w1 := snd (run (handle_chosen_inline_result user result_id) w0) in
     if startswith result_id "tweet" then w1 = w0
     else history (user_data_of uid w1)
          = history (user_data_of uid w0)
            ++ match pending (user_data_of uid w0) !! result_id with
               | Some fid => if truthy fid then [fid] else []
               | None => []
               end).
Proof.
  intros Hu Hq uid w' h key fid. split; [exact tweet_id_startswith|].
  split; [exact uuid4_not_tweet|]. split.
  - exists (fst (inline_effect qid user query w)). subst w'. rewrite inline_run. cbn [snd].
    split; [by apply inline_answer|].
    assert (Hc : length (history_candidates h) = length h /\
                 forall i, history_candidates h !! i
                           = (fun sticker_id => mkCachedSticker ("tweet " +:+ pretty i) sticker_id)
                               <$> reverse h !! i).
    { split; [|apply history_candidates_lookup].
      unfold history_candidates. by rewrite length_imap, length_reverse. }
    destruct (truthy query) eqn:Ht;
      [destruct (build_sticker query user) as [msg|png] eqn:Hb|].
    2: { destruct (inline_effect_rendered qid user query png w Ht Hb)
           as (-> & Hud & _). cbn [results].
         fold uid in Hud. fold h key fid in Hud |- *.
         assert (Hp : pending (user_data_of uid (snd (inline_effect qid user query w)))
                        !! key = Some fid).
         { by rewrite Hud, pending_mk, lookup_insert_eq. }
         split; [|split].
         - constructor.
           + right. cbn [id sticker_file_id]. subst key. auto using uuid4_not_tweet.
           + eapply Forall_impl; [apply history_candidates_ids|]. intros c Hc'. by left.
         - exists (history_candidates h). by split.
         - intros _ _ _. subst key. auto using uuid4_not_tweet. }
    all: rewrite inline_effect_no_sticker by eauto; cbn [fst]; rewrite Ht; cbn [results].
    + split; [constructor|]. split; [|discriminate].
      exists (history_candidates h). by split.
    + split; [eapply Forall_impl; [apply history_candidates_ids|]; intros c Hc'; by left|].
      split; [|discriminate]. exists (history_candidates h). by split.
  - intros result_id w0 w1. subst w1. rewrite handle_chosen_inline_result_run. cbn [snd].
    destruct (startswith result_id "tweet"); [reflexivity|].
    rewrite user_data_of_with. unfold chosen_effect. fold uid.
    destruct (pending (user_data_of uid w0) !! result_id) as [f|];
      [destruct (truthy f)|]; rewrite ?history_mk, ?app_nil_r; try reflexivity.
    all: unfold history; by destruct (FILE_IDS _).
Qed.

(** ** Pending selections *)

(** C2, as the code has it.  An inline query with a non-empty text that
    renders adds one entry to the pending selections of the user, from the
    UUID it draws to the file id of the sticker it publishes; the entries
    of earlier queries stay in the dictionary next to it (only an entry
    under the very same key is overwritten).  The pending selections are
    emptied, all at once, by the next chosen-result notification whose
    result id does not start with [tweet]. *)
Theorem inline_query_adds_pending (w : World) (qid : string) (user : User)
    (query png : string) :
  truthy query = true -> build_sticker query user = inr png ->
  let uid := user_id user in
  let w' := snd (run (inline qid user query) w) in
  let key := uuid4 (drawn w) in
  let fid := issue_file_id (length (uploads (seeded w))) in
  pending (user_data_of uid w') = <[key := fid]> (pending (user_data_of uid w)) /\
  (forall k, k <> key ->
     pending (user_data_of uid w') !! k = pending (user_data_of uid w) !! k) /\
  (forall result_id, startswith result_id "tweet" = false ->
     pending (user_data_of uid
                (snd (run (handle_chosen_inline_result user result_id) w'))) = ∅).
Proof.
  intros Ht Hb uid w' key fid. subst w'. rewrite inline_run. cbn [snd].
  destruct (inline_effect_rendered qid user query png w Ht Hb) as (_ & Hud & _).
  fold uid key fid in Hud. rewrite Hud, pending_mk. repeat split.
  - intros k Hk. by rewrite lookup_insert_ne.
  - intros result_id Hs. rewrite handle_chosen_inline_result_run, Hs. cbn [snd].
    by rewrite user_data_of_with.
Qed.

(** Two inline queries of one user, with texts that render, one after the
    other. *)
Lemma two_inline_queries (w : World) (q1 q2 : string) (user : User)
    (t1 t2 png1 png2 : string) :
  truthy t1 = true -> build_sticker t1 user = inr png1 ->
  truthy t2 = true -> build_sticker t2 user = inr png2 ->
  let uid := user_id user in
  let w2 := snd (run (inline q2 user t2) (snd (run (inline q1 user t1) w))) in
  let n := length (uploads (seeded w)) in
  user_data_of uid w2
  = mkUserData (Some (history (user_data_of uid w)))
      (Some (<[uuid4 (S (drawn w)) := issue_file_id (S n)]>
               (<[uuid4 (drawn w) := issue_file_id n]> (pending (user_data_of uid w))))) /\
  uploads w2 = uploads (seeded w) ++ [png1; png2].
Proof.
  intros Ht1 Hb1 Ht2 Hb2 uid w2 n. subst w2. rewrite !inline_run. cbn [snd].
  destruct (inline_effect_rendered q1 user t1 png1 w Ht1 Hb1)
    as (_ & Hud & _ & Hd & Hup & _ & _ & Hc).
  set (w1 := snd (inline_effect q1 user t1 w)) in *.
  destruct (inline_effect_rendered q2 user t2 png2 w1 Ht2 Hb2)
    as (_ & Hud2 & _ & _ & Hup2 & _).
  rewrite (seeded_id w1 Hc), Hup in Hud2, Hup2. rewrite Hd in Hud2.
  fold uid in Hud, Hud2. rewrite Hud2, Hup2, Hud, history_mk, pending_mk.
  rewrite length_app, Nat.add_1_r, <- app_assoc. by fold n.
Qed.

(** C3, as the code has it.  After two inline queries of one user with
    non-empty texts that render, and no chosen-result notification in
    between, both pending selections are in the dictionary (the two UUIDs
    being different): a chosen-result notification citing the first key
    appends the first reference to the history, one citing the second key
    appends the second.  Either one clears the pending selections, so that
    of the two notifications only the one that arrives first appends. *)
Theorem both_selections_stay_pending (w : World) (q1 q2 : string) (user : User)
    (t1 t2 png1 png2 : string) :
  (forall n, is_uuid4 (uuid4 n) = true) ->
  uuid4 (drawn w) <> uuid4 (S (drawn w)) ->
  truthy t1 = true -> build_sticker t1 user = inr png1 ->
  truthy t2 = true -> build_sticker t2 user = inr png2 ->
  let uid := user_id user in
  let w2 := snd (run (inline q2 user t2) (snd (run (inline q1 user t1) w))) in
  let chosen key w0 := snd (run (handle_chosen_inline_result user key) w0) in
  let k1 := uuid4 (drawn w) in
  let k2 := uuid4 (S (drawn w)) in
  let f1 := issue_file_id (length (uploads (seeded w))) in
  let f2 := issue_file_id (S (length (uploads (seeded w)))) in
  let h := history (user_data_of uid w) in
  history (user_data_of uid w2) = h /\
  pending (user_data_of uid w2) = <[k2 := f2]> (<[k1 := f1]> (pending (user_data_of uid w))) /\
  history (user_data_of uid (chosen k1 w2)) = h ++ [f1] /\
  history (user_data_of uid (chosen k2 w2)) = h ++ [f2] /\
  pending (user_data_of uid (chosen k1 w2)) = ∅ /\
  pending (user_data_of uid (chosen k2 w2)) = ∅ /\
  history (user_data_of uid (chosen k2 (chosen k1 w2))) = h ++ [f1] /\
  history (user_data_of uid (chosen k1 (chosen k2 w2))) = h ++ [f2].
Proof.
  intros Hu Hne Ht1 Hb1 Ht2 Hb2 uid w2 chosen k1 k2 f1 f2 h.
  destruct (two_inline_queries w q1 q2 user t1 t2 png1 png2 Ht1 Hb1 Ht2 Hb2)
    as [Hud _].
  fold uid w2 k1 k2 f1 f2 h in Hud.
  assert (Hk1 : startswith k1 "tweet" = false) by apply uuid4_not_tweet, Hu.
  assert (Hk2 : startswith k2 "tweet" = false) by apply uuid4_not_tweet, Hu.
  assert (H1 : user_data_of uid (chosen k1 w2) = mkUserData (Some (h ++ [f1])) (Some ∅)).
  { subst chosen. cbn beta. rewrite handle_chosen_inline_result_run, Hk1. cbn [snd].
    rewrite user_data_of_with. fold uid. rewrite Hud. unfold chosen_effect.
    rewrite pending_mk, history_mk, lookup_insert_ne, lookup_insert_eq by done.
    subst f1. by rewrite issue_file_id_truthy. }
  assert (H2 : user_data_of uid (chosen k2 w2) = mkUserData (Some (h ++ [f2])) (Some ∅)).
  { subst chosen. cbn beta. rewrite handle_chosen_inline_result_run, Hk2. cbn [snd].
    rewrite user_data_of_with. fold uid. rewrite Hud. unfold chosen_effect.
    rewrite pending_mk, history_mk, lookup_insert_eq.
    subst f2. by rewrite issue_file_id_truthy. }
  assert (H3 : forall key w0 l, startswith key "tweet" = false ->
            user_data_of uid w0 = mkUserData (Some l) (Some ∅) ->
            history (user_data_of uid (chosen key w0)) = l).
  { intros key w0 l Hs H0. subst chosen. cbn beta.
    rewrite handle_chosen_inline_result_run, Hs. cbn [snd].
    rewrite user_data_of_with. fold uid. rewrite H0. unfold chosen_effect.
    by rewrite pending_mk, lookup_empty. }
  rewrite (H3 k2 _ _ Hk2 H1), (H3 k1 _ _ Hk1 H2), H1, H2, Hud.
  by rewrite !history_mk, !pending_mk.
Qed.

(** ** The answer of [inline] *)

(** C5. The delivered answer of every inline query lists the pending
    candidate, if there is one, first and then candidates of the history,
    latest first.  When the text renders, the answer is the freshly
    published sticker under its key followed by the whole history in
    reverse order.  When the query text is empty, the answer is exactly the
    history in reverse order; the platform is left as a trim leaves it, with
    the answer delivered and the history key set: no file is uploaded (none
    at all when the set exists), no UUID is drawn and the pending
    selections and the history of the user stay as they are. *)
Theorem inline_answer_order (w : World) (qid : string) (user : User) (query : string) :
  qid ∉ expired_queries w ->
  let uid := user_id user in
  let ud := user_data_of uid w in
  let w' := snd (run (inline qid user query) w) in
  let fid := issue_file_id (length (uploads (seeded w))) in
  exists kwargs,
    fst (run (inline qid user query) w) = inr tt /\
    outbox w' = outbox w ++ [SentAnswer qid kwargs] /\
    pending_first_then_history (history ud)
      (if truthy query then
         match build_sticker query user with inr _ => Some fid | inl _ => None end
       else None)
      (results kwargs) /\
    (forall png, truthy query = true -> build_sticker query user = inr png ->
       results kwargs = mkCachedSticker (uuid4 (drawn w)) fid :: history_candidates (history ud) /\
       sticker_file_id <$> results kwargs = fid :: reverse (history ud) /\
       file_content w' fid = Some png /\
       pending (user_data_of uid w') !! uuid4 (drawn w) = Some fid) /\
    (query = "" ->
       results kwargs = history_candidates (history ud) /\
       sticker_file_id <$> results kwargs = reverse (history ud) /\
       w' = sent (SentAnswer qid kwargs)
              (on_user_data uid setdefault_FILE_IDS (trimmed (seeded w))) /\
       uploads w' = uploads (seeded w) /\
       (is_Some (collection w) -> uploads w' = uploads w) /\
       drawn w' = drawn w /\
       TEMP_FILE_IDS (user_data_of uid w') = TEMP_FILE_IDS ud /\
       history (user_data_of uid w') = history ud).
Proof.
  intros Hq uid ud w' fid. exists (fst (inline_effect qid user query w)).
  subst w'. rewrite inline_run. cbn [fst snd].
  split; [reflexivity|]. split; [by apply inline_answer|].
  apply (bool_decide_eq_false_2 _) in Hq.
  destruct (truthy query) eqn:Ht;
    [destruct (build_sticker query user) as [msg|png] eqn:Hb|].
  - rewrite inline_effect_no_sticker by eauto. cbn [fst snd]. rewrite Ht. cbn [results].
    split; [exists []; split; [reflexivity|apply sublist_nil_l]|].
    split; [discriminate|]. intros ->. discriminate.
  - destruct (inline_effect_rendered qid user query png w Ht Hb)
      as (-> & Hud & _ & _ & Hup & _). cbn [results].
    fold uid ud fid in Hud |- *. split.
    { exists (reverse (history ud)). rewrite fmap_cons, history_candidates_files.
      split; reflexivity. }
    split; [|intros ->; discriminate].
    intros png' _ [= <-]. rewrite fmap_cons, history_candidates_files.
    repeat split.
    + subst fid. rewrite file_content_issued, Hup.
      by rewrite lookup_app_r, Nat.sub_diag.
    + by rewrite Hud, pending_mk, lookup_insert_eq.
  - rewrite inline_effect_no_sticker by eauto. cbn [fst snd]. rewrite Ht, Hq.
    cbn [results]. fold uid ud. rewrite history_candidates_files. split.
    { exists (reverse (history ud)). split; [apply history_candidates_files|reflexivity]. }
    split; [discriminate|]. intros _. autorewrite with frame.
    destruct (setdefault_FILE_IDS_keeps ud) as [Hh Hp].
    repeat split; try assumption.
    intros Hc. by rewrite seeded_id.
Qed.

(** ** Rendering failures *)

Lemma collection_of_sticker_sets (w1 w2 : World) :
  sticker_sets w1 = sticker_sets w2 ->
  seed w1 = seed w2 /\ collection_size w1 = collection_size w2.
Proof. intros H. unfold seed, collection_size, collection. by rewrite H. Qed.

(** A request that publishes nothing leaves a well-kept set with its seed alone. *)
Lemma left_trimmed (w w' : World) :
  sticker_sets w' = sticker_sets (trimmed (seeded w)) ->
  uploads w' = uploads (seeded w) ->
  well_kept w ->
  uploads w' = uploads w /\ seed w' = seed w /\ collection_size w' = 1 /\
  (collection_size w = 1 -> collection_size w' = collection_size w).
Proof.
  intros Hs Hu Hk. destruct (collection_of_sticker_sets _ _ Hs) as [-> ->].
  rewrite Hu, (well_kept_seeded w Hk).
  destruct (clean_sticker_set_kept w Hk) as (_ & _ & Hseed & Hsz).
  repeat split; try assumption. intros H1. by rewrite Hsz, H1.
Qed.

(** C9, as the code has it.  When the text does not render: [message]
    answers with the message of the error as a text, once, and nothing else
    besides the chat action is sent; [inline] answers with no candidates and
    a button [Click me!] leading to the private chat with the parameter
    [hyphenation_error], not with the message.  In both cases the handler
    returns, no file is uploaded beyond making sure of the set, the
    pending selections and the history of the user stay as they are, and a
    well-kept set is left with its seed alone: its size is unchanged when
    it held only the seed before. *)
Theorem rendering_failure (w : World) (user : User) (text msg : string) :
  build_sticker text user = inl msg ->
  let uid := user_id user in
  (forall chat_id,
     let w' := snd (run (message user chat_id text) w) in
     fst (run (message user chat_id text) w) = inr tt /\
     outbox w' = outbox w ++ [SentChatAction uid "upload_photo"; SentText chat_id msg] /\
     all_user_data w' = all_user_data w /\
     uploads w' = uploads (seeded w) /\
     (well_kept w ->
        uploads w' = uploads w /\ seed w' = seed w /\ collection_size w' = 1 /\
        (collection_size w = 1 -> collection_size w' = collection_size w))) /\
  (forall qid, truthy text = true -> qid ∉ expired_queries w ->
     let w' := snd (run (inline qid user text) w) in
     fst (run (inline qid user text) w) = inr tt /\
     outbox w' = outbox w
       ++ [SentAnswer qid (mkKwargs [] (Some "Click me!") (Some "hyphenation_error"))] /\
     TEMP_FILE_IDS (user_data_of uid w') = TEMP_FILE_IDS (user_data_of uid w) /\
     history (user_data_of uid w') = history (user_data_of uid w) /\
     (forall uid', uid <> uid' -> user_data_of uid' w' = user_data_of uid' w) /\
     uploads w' = uploads (seeded w) /\
     (well_kept w ->
        uploads w' = uploads w /\ seed w' = seed w /\ collection_size w' = 1 /\
        (collection_size w = 1 -> collection_size w' = collection_size w))).
Proof.
  intros Hb uid. split.
  - intros chat_id w'. subst w'. rewrite message_run. cbn [fst snd].
    rewrite (message_effect_failed user chat_id text msg w Hb).
    split; [reflexivity|]. split; [autorewrite with frame; by rewrite <- app_assoc|].
    split.
    { change (all_user_data (trimmed (seeded w)) = all_user_data w).
      by destruct (trimmed_frame (seeded w)) as (_ & _ & _ & -> & _),
                  (seeded_frame w) as (_ & _ & -> & _). }
    split; [by autorewrite with frame|].
    apply left_trimmed; [reflexivity|by autorewrite with frame].
  - intros qid Ht Hq w'. subst w'. rewrite inline_run. cbn [fst snd].
    apply (bool_decide_eq_false_2 _) in Hq.
    rewrite inline_effect_no_sticker by eauto. cbn [snd]. rewrite Ht, Hq.
    destruct (setdefault_FILE_IDS_keeps (user_data_of uid w)) as [Hh Hp].
    split; [reflexivity|]. split; [by autorewrite with frame|].
    split; [by autorewrite with frame|]. split; [by autorewrite with frame|].
    split.
    { intros uid' Hne. autorewrite with frame.
      rewrite user_data_of_on_ne by done. by autorewrite with frame. }
    split; [by autorewrite with frame|].
    apply left_trimmed; [reflexivity|by autorewrite with frame].
Qed.

(** ** Making sure of the set *)

(** C8, as the code has it.  On the platform [get_sticker_set] is
    idempotent: called twice it returns the same set and leaves the same
    platform as called once.  When the set does not exist it is created
    with exactly one sticker, the logo, and returned; when it exists it is
    returned and the platform is not modified.  A [BadRequest] with which a
    platform answers [create_new_sticker_set], such as the name being
    taken already, is not handled: it is raised to the caller. *)
Theorem get_sticker_set_idempotent (w : World) (name : string) :
  run (get_sticker_set name ;; get_sticker_set name)%prog w = run (get_sticker_set name) w /\
  (sticker_sets w !! name = None ->
   let s := mkSticker (issue_file_id (length (uploads w))) bird in
   let w' := snd (run (get_sticker_set name) w) in
   fst (run (get_sticker_set name) w) = inr (mkStickerSet name [s]) /\
   sticker_sets w' = <[name := [s]]> (sticker_sets w) /\
   file_content w' (file_id s) = Some logo_png) /\
  (forall l, sticker_sets w !! name = Some l ->
   run (get_sticker_set name) w = (inr (mkStickerSet name l), w)) /\
  (forall (W : Type) (h : forall R, Api R -> W -> (string + R) * W) (w0 w1 w2 : W)
          (msg msg' : string),
     h _ (GetStickerSet name) w0 = (inl msg, w1) ->
     contains "invalid" msg = true ->
     h _ (CreateNewStickerSet ADMIN name STICKER_SET_NAME bird logo_png) w1 = (inl msg', w2) ->
     run_on h (get_sticker_set name) w0 = (inl (BadRequest msg'), w2)).
Proof.
  split; [|split; [|split]].
  - rewrite run_bind, get_sticker_set_run. cbv iota beta.
    rewrite !get_sticker_set_run.
    assert (H : seeded_at name (seeded_at name w) = seeded_at name w).
    { unfold seeded_at at 1. destruct (sticker_sets (seeded_at name w) !! name) eqn:E;
        [reflexivity|].
      exfalso. unfold seeded_at in E. destruct (sticker_sets w !! name) eqn:E'.
      - congruence.
      - simpl in E. by rewrite lookup_insert_eq in E. }
    rewrite H. reflexivity.
  - intros Hn s w'. subst w'. rewrite get_sticker_set_run. unfold seeded_at.
    rewrite Hn. cbn [fst snd]. simpl sticker_sets. rewrite lookup_insert_eq.
    repeat split. subst s. cbn [file_id]. rewrite file_content_issued. simpl.
    by rewrite lookup_app_r, Nat.sub_diag.
  - intros l Hl. rewrite get_sticker_set_run. unfold seeded_at.
    rewrite Hl. cbv iota. by rewrite Hl.
  - intros W h w0 w1 w2 msg msg' Hg Hi Hc. unfold get_sticker_set.
    rewrite run_on_catch, run_on_call, Hg, Hi, run_on_bind, run_on_call, Hc.
    reflexivity.
Qed.

(** ** Handlers in turn and handlers at the same time *)

Lemma interleave_app {A} (s1 s2 : list nat) (pool : list (Prog A)) (w : World) :
  interleave (s1 ++ s2) pool w
  = interleave s2 (fst (interleave s1 pool w)) (snd (interleave s1 pool w)).
Proof.
  revert pool w. induction s1 as [|i s1 IH]; intros pool w; [reflexivity|].
  simpl. destruct (pool !! i) as [p|]; [|apply IH].
  destruct (step p w) as [p' w']. apply IH.
Qed.

(** Advancing one handler of the pool as often as it has events is running it. *)
Lemma interleave_run {A} (i : nat) (p : Prog A) (pool : list (Prog A)) (w : World) :
  pool !! i = Some p ->
  interleave (repeat i (events p w)) pool w
  = (<[i := finished (fst (run p w))]> pool, snd (run p w)).
Proof.
  revert pool w. induction p as [a|e|R c k IH]; intros pool w Hp; simpl.
  - by rewrite list_insert_id.
  - by rewrite list_insert_id.
  - unfold run. simpl. destruct (exec R c w) as [r w'] eqn:E. simpl.
    rewrite Hp. simpl. rewrite E.
    rewrite (IH r (<[i := k r]> pool) w').
    + by rewrite list_insert_insert_eq.
    + apply list_lookup_insert_eq. by eapply lookup_lt_Some.
Qed.

Lemma get_sticker_id_own_file (text : string) (user : User) (png : string) (w : World) :
  build_sticker text user = inr png ->
  exists fid w', run (get_sticker_id text user) w = (inr fid, w') /\
                 file_content w' fid = Some png.
Proof.
  intros Hb. rewrite get_sticker_id_run, Hb. eexists _, _. split; [reflexivity|].
  rewrite file_content_issued, uploads_published
    by apply trimmed_collection_some, seeded_collection.
  by rewrite lookup_app_r, Nat.sub_diag.
Qed.

(** C7, as the code has it.  [get_sticker_id] holds no lock: it is a
    sequence of separate calls to the platform.  When the handlers run in
    turn, each to its end before the next starts, a publish returns the
    file id of the sticker rendered for its own request, and after the
    inline queries of two different users each user's pending key stands
    for that user's own sticker, which that user's chosen-result
    notification appends, last, to that user's history.  Running the two
    handlers in turn is the schedule that advances the first until it has
    returned and then the second. *)
Theorem handlers_in_turn_keep_own_reference (w : World) (qa qb : string) (a b : User)
    (ta tb pnga pngb : string) :
  (forall n, is_uuid4 (uuid4 n) = true) ->
  user_id a <> user_id b ->
  truthy ta = true -> build_sticker ta a = inr pnga ->
  truthy tb = true -> build_sticker tb b = inr pngb ->
  let wa := snd (run (inline qa a ta) w) in
  let w2 := snd (run (inline qb b tb) wa) in
  let ka := uuid4 (drawn w) in
  let kb := uuid4 (S (drawn w)) in
  let w4 := snd (run (handle_chosen_inline_result b kb)
                   (snd (run (handle_chosen_inline_result a ka) w2))) in
  (forall text user png w0, build_sticker text user = inr png ->
     exists fid w0', run (get_sticker_id text user) w0 = (inr fid, w0') /\
                     file_content w0' fid = Some png) /\
  interleave (repeat 0 (events (inline qa a ta) w) ++ repeat 1 (events (inline qb b tb) wa))
             [inline qa a ta; inline qb b tb] w
  = ([Ret tt; Ret tt], w2) /\
  exists fa fb,
    pending (user_data_of (user_id a) w2) !! ka = Some fa /\
    file_content w2 fa = Some pnga /\
    pending (user_data_of (user_id b) w2) !! kb = Some fb /\
    file_content w2 fb = Some pngb /\
    last (history (user_data_of (user_id a) w4)) = Some fa /\
    last (history (user_data_of (user_id b) w4)) = Some fb.
Proof.
  intros Hu Hab Hta Hba Htb Hbb wa w2 ka kb w4.
  split; [intros text user png w0; apply get_sticker_id_own_file|]. split.
  { rewrite interleave_app, (interleave_run 0 (inline qa a ta)) by reflexivity.
    cbn [fst snd]. fold wa.
    rewrite (interleave_run 1 (inline qb b tb)) by reflexivity. fold w2.
    by rewrite !inline_run. }
  subst w4 w2 wa. rewrite !inline_run, !handle_chosen_inline_result_run. cbn [snd].
  rewrite (uuid4_not_tweet ka (Hu _)), (uuid4_not_tweet kb (Hu _)).
  destruct (inline_effect_rendered qa a ta pnga w Hta Hba)
    as (_ & Hud & Hne & Hd & Hup & _ & _ & Hc).
  set (wa := snd (inline_effect qa a ta w)) in *.
  destruct (inline_effect_rendered qb b tb pngb wa Htb Hbb)
    as (_ & Hud2 & Hne2 & _ & Hup2 & _).
  set (w2 := snd (inline_effect qb b tb wa)) in *.
  rewrite (seeded_id wa Hc), Hup in Hud2, Hup2. rewrite Hd in Hud2. fold ka kb in Hud, Hud2.
  assert (Hab' : user_id b <> user_id a) by congruence.
  assert (Ha2 : user_data_of (user_id a) w2
                = mkUserData (Some (history (user_data_of (user_id a) w)))
                    (Some (<[ka := issue_file_id (length (uploads (seeded w)))]>
                             (pending (user_data_of (user_id a) w))))).
  { by rewrite (Hne2 _ Hab'), Hud. }
  exists (issue_file_id (length (uploads (seeded w)))),
         (issue_file_id (length (uploads (seeded w) ++ [pnga]))).
  rewrite Ha2, Hud2, !pending_mk, !lookup_insert_eq, !file_content_issued, Hup2.
  repeat split.
  - rewrite lookup_app_l by (rewrite length_app; simpl; lia).
    by rewrite lookup_app_r, Nat.sub_diag.
  - by rewrite lookup_app_r, Nat.sub_diag.
  - rewrite user_data_of_with_ne, user_data_of_with by done.
    unfold chosen_effect. rewrite ?pending_mk, ?lookup_insert_eq, ?issue_file_id_truthy.
    rewrite !history_mk. apply last_snoc.
  - rewrite user_data_of_with, user_data_of_with_ne by done.
    unfold chosen_effect. rewrite ?Hud2, ?pending_mk, ?lookup_insert_eq, ?issue_file_id_truthy.
    rewrite !history_mk. apply last_snoc.
Qed.

(** * Further properties of bot.py *)

(** ** Trimming *)

(** X1. Trimming twice is trimming once: on any platform state, one call
    of [clean_sticker_set] returns normally, so do two calls in a row, and
    the two calls leave what the one call leaves. *)
Theorem trim_twice_is_trim_once (w : World) :
  fst (run clean_sticker_set w) = inr tt /\
  fst (run (clean_sticker_set ;; clean_sticker_set)%prog w) = inr tt /\
  run (clean_sticker_set ;; clean_sticker_set)%prog w = run clean_sticker_set w.
Proof.
  rewrite run_bind, clean_sticker_set_run. cbv iota beta.
  by rewrite clean_sticker_set_run, clean_twice.
Qed.

(** X2. However many stickers are left in a well-kept set, one trim leaves
    exactly its first sticker, and one publish leaves the first sticker
    and the new one: every operation restores a size of one or two and
    keeps the first sticker. *)
Theorem leftovers_are_trimmed (w : World) (op : Op) :
  well_kept w ->
  well_kept (perform op w) /\ seed (perform op w) = seed w /\
  (collection_size (perform op w) = 1 \/ collection_size (perform op w) = 2) /\
  collection_size (perform Trim w) = 1.
Proof.
  intros Hk. destruct (perform_kept op w Hk) as (H1 & H2 & H3).
  repeat split; try assumption.
  cbn [perform]. destruct (clean_sticker_set_kept w Hk) as (Hr & _ & _ & Hsz).
  by rewrite Hr.
Qed.

Lemma well_kept_created (w : World) :
  collection w = None ->
  well_kept (seeded w) /\ trimmed (seeded w) = seeded w /\
  collection (seeded w) = Some [mkSticker (issue_file_id (length (uploads w))) bird] /\
  uploads (seeded w) = uploads w ++ [logo_png].
Proof.
  intros Hn. unfold seeded, seeded_at. unfold collection in Hn. rewrite Hn.
  assert (Hc : collection (upload build_sticker_set_name [] bird logo_png w)
               = Some [mkSticker (issue_file_id (length (uploads w))) bird]).
  { unfold collection. simpl. by rewrite lookup_insert_eq. }
  repeat split; try assumption.
  - unfold well_kept. rewrite Hc. split; [apply NoDup_singleton|].
    intros x Hx. apply list_elem_of_singleton in Hx as ->.
    unfold issued. simpl. rewrite length_app. simpl.
    apply list_elem_of_fmap. eexists. split; [reflexivity|].
    apply elem_of_seq. lia.
  - unfold trimmed. by rewrite Hc.
Qed.

(** X3. First use: when the set does not exist yet, [clean_sticker_set]
    creates it with the logo as its only sticker, and [get_sticker_id]
    creates it and publishes into it, so that the logo is the seed and the
    rendered sticker the second and last one. *)
Theorem first_use_creates_the_seed (w : World) :
  collection w = None ->
  let logo := mkSticker (issue_file_id (length (uploads w))) bird in
  (let w' := snd (run clean_sticker_set w) in
   fst (run clean_sticker_set w) = inr tt /\
   collection w' = Some [logo] /\ file_content w' (file_id logo) = Some logo_png /\
   well_kept w') /\
  (forall text user png, build_sticker text user = inr png ->
     let new := mkSticker (issue_file_id (S (length (uploads w)))) bird in
     let w' := snd (run (get_sticker_id text user) w) in
     fst (run (get_sticker_id text user) w) = inr (file_id new) /\
     collection w' = Some [logo; new] /\
     file_content w' (file_id logo) = Some logo_png /\
     file_content w' (file_id new) = Some png /\
     well_kept w').
Proof.
  intros Hn logo. destruct (well_kept_created w Hn) as (Hk & Ht & Hc & Hu). split.
  - rewrite clean_sticker_set_run, Ht. cbn [fst snd]. repeat split; try assumption.
    subst logo. cbn [file_id]. rewrite file_content_issued, Hu.
    by rewrite lookup_app_r, Nat.sub_diag.
  - intros text user png Hb new w'. subst w'. rewrite get_sticker_id_run, Hb, Ht, Hu.
    cbn [fst snd].
    destruct (well_kept_published png _ _ Hk Hc) as [Hk' Hc'].
    rewrite Hu in Hc'. rewrite length_app, Nat.add_1_r in *. fold new in Hc'.
    assert (Hu' : uploads (published png (seeded w)) = (uploads w ++ [logo_png]) ++ [png]).
    { rewrite uploads_published by eauto. by rewrite Hu. }
    repeat split; try assumption; subst logo new; cbn [file_id];
      rewrite file_content_issued, Hu'.
    + rewrite lookup_app_l by (rewrite length_app; simpl; lia).
      by rewrite lookup_app_r, Nat.sub_diag.
    + rewrite lookup_app_r by (rewrite length_app; simpl; lia).
      rewrite length_app. simpl. by replace (S (length (uploads w)) - _) with 0 by lia.
Qed.

(** ** The sticker sets and the files under the handlers *)

Lemma same_files_remove_all (l : list Sticker) (a b : World) :
  same_files a b -> same_files (remove_all l a) (remove_all l b).
Proof.
  revert a b. induction l as [|s l IH]; intros a b Hab; [assumption|].
  simpl. apply IH. destruct Hab as [Hs Hu]. split; simpl; [by rewrite Hs|assumption].
Qed.

Lemma same_files_trimmed (a b : World) :
  same_files a b -> same_files (trimmed a) (trimmed b).
Proof.
  intros Hab. unfold trimmed, collection. destruct Hab as [Hs Hu]. rewrite Hs.
  destruct (sticker_sets b !! _); [|by split]. by apply same_files_remove_all.
Qed.

Lemma same_files_seeded (a b : World) :
  same_files a b -> same_files (seeded a) (seeded b).
Proof.
  intros [Hs Hu]. unfold seeded, seeded_at. rewrite Hs.
  destruct (sticker_sets b !! _); [by split|]. split; simpl; by rewrite ?Hs, ?Hu.
Qed.

Lemma same_files_published (png : string) (a b : World) :
  same_files a b -> same_files (published png a) (published png b).
Proof.
  intros [Hs Hu]. unfold published, collection. rewrite Hs.
  destruct (sticker_sets b !! _); [|by split]. split; simpl; by rewrite ?Hs, ?Hu.
Qed.

Lemma same_files_trans (a b c : World) :
  same_files a b -> same_files b c -> same_files a c.
Proof. intros [H1 H2] [H3 H4]. split; congruence. Qed.

Lemma same_files_well_kept (a b : World) :
  same_files a b -> well_kept b ->
  well_kept a /\ seed a = seed b /\ collection_size a = collection_size b.
Proof.
  intros [Hs Hu] Hk. unfold well_kept, seed, collection_size, collection, issued in *.
  by rewrite Hs, Hu.
Qed.

Lemma message_files (user : User) (chat_id : Z) (text : string) (w : World) :
  same_files (message_effect user chat_id text w)
    (trimmed (seeded (during (match build_sticker text user with
                              | inr png => Some png | inl _ => None end) w))).
Proof.
  unfold message_effect. apply same_files_trimmed, same_files_seeded.
  destruct (build_sticker text user) as [msg|png]; cbn [during].
  - rewrite seeded_sent, !trimmed_sent. by split.
  - eapply same_files_trans; [by split|].
    apply same_files_published. rewrite seeded_sent, trimmed_sent. by split.
Qed.

Lemma after_request_kept (rendered : option string) (w : World) :
  well_kept w ->
  let w' := trimmed (seeded (during rendered w)) in
  well_kept w' /\ seed w' = seed w /\ collection_size w' = 1 /\
  uploads w' = uploads w ++ option_list rendered.
Proof.
  intros Hk w'. subst w'.
  destruct (well_kept_trimmed w Hk) as (Hk1 & Hs1 & s & Hseed & Hc1).
  destruct rendered as [png|]; cbn [during option_list];
    rewrite (well_kept_seeded w Hk).
  - destruct (well_kept_published png _ s Hk1 Hc1) as [Hk2 Hc2].
    rewrite (well_kept_seeded _ Hk2).
    destruct (clean_sticker_set_kept _ Hk2) as (_ & Hk3 & Hs3 & Hsz3).
    repeat split; try assumption.
    + rewrite Hs3. unfold seed at 1. rewrite Hc2. simpl. by rewrite Hseed.
    + rewrite uploads_trimmed, uploads_published by eauto. by rewrite uploads_trimmed.
  - rewrite (well_kept_seeded _ Hk1), trimmed_idem, app_nil_r.
    destruct (clean_sticker_set_kept w Hk) as (_ & _ & _ & Hsz).
    repeat split; try assumption. by rewrite uploads_trimmed.
Qed.

Lemma same_files_drew (w : World) : same_files (drew w) w.
Proof. by split. Qed.

Lemma inline_files (qid : string) (user : User) (query : string) (w : World) :
  same_files (snd (inline_effect qid user query w))
    (trimmed (seeded (if truthy query then
                        during (match build_sticker query user with
                                | inr png => Some png | inl _ => None end) w
                      else w))).
Proof.
  unfold inline_effect.
  assert (H1 : same_files (trimmed (seeded (on_user_data (user_id user) setdefault_FILE_IDS w)))
                          (trimmed (seeded w))).
  { rewrite seeded_on, trimmed_on. by split. }
  destruct (truthy query); [destruct (build_sticker query user) as [msg|png]|];
    cbn [snd during]; destruct (bool_decide _);
    apply same_files_trimmed, same_files_seeded;
    repeat (eapply same_files_trans; [by split|]);
    try assumption; try (by apply same_files_published); by split.
Qed.

(** ** The [user_data] under the handlers *)

Lemma message_user_data (user : User) (chat_id : Z) (text : string) (w : World) (uid : Z) :
  user_data_of uid (message_effect user chat_id text w)
  = match build_sticker text user with
    | inr png =>
        if decide (user_id user = uid)
        then snd (append_FILE_IDS (issue_file_id (length (uploads (seeded w))))
                                  (user_data_of uid w))
        else user_data_of uid w
    | inl _ => user_data_of uid w
    end.
Proof.
  unfold message_effect. autorewrite with frame.
  destruct (build_sticker text user) as [msg|png]; autorewrite with frame; [reflexivity|].
  rewrite seeded_sent, uploads_sent.
  destruct (decide (user_id user = uid)) as [<-|Hne].
  - by autorewrite with frame.
  - rewrite user_data_of_on_ne by done. by autorewrite with frame.
Qed.

Lemma inline_history (qid : string) (user : User) (query : string) (w : World) (uid : Z) :
  history (user_data_of uid (snd (inline_effect qid user query w)))
  = history (user_data_of uid w).
Proof.
  destruct (truthy query) eqn:Ht; [destruct (build_sticker query user) as [msg|png] eqn:Hb|].
  2: { destruct (inline_effect_rendered qid user query png w Ht Hb) as (_ & Hud & Hne & _).
       destruct (decide (user_id user = uid)) as [<-|Hn]; [by rewrite Hud|by rewrite Hne]. }
  all: rewrite inline_effect_no_sticker by eauto; cbn [snd].
  all: destruct (bool_decide _); autorewrite with frame.
  all: destruct (decide (user_id user = uid)) as [<-|Hn];
       [autorewrite with frame;
        by destruct (setdefault_FILE_IDS_keeps (user_data_of (user_id user) w)) as [-> _]
       |rewrite user_data_of_on_ne by done; by autorewrite with frame].
Qed.

(** ** The handlers on texts that render *)

(** X4. A text message whose text renders: [message] returns, the user
    gets the chat action and then the sticker just published, whose file
    is the rendered image; its file id is appended to the history of the
    user and nothing else changes in any [user_data]; one file is uploaded,
    and a well-kept set is back to its seed alone. *)
Theorem message_delivers_the_sticker (w : World) (user : User) (chat_id : Z)
    (text png : string) :
  build_sticker text user = inr png ->
  let uid := user_id user in
  let fid := issue_file_id (length (uploads (seeded w))) in
  let w' := snd (run (message user chat_id text) w) in
  fst (run (message user chat_id text) w) = inr tt /\
  outbox w' = outbox w ++ [SentChatAction uid "upload_photo"; SentSticker chat_id fid] /\
  file_content w' fid = Some png /\
  history (user_data_of uid w') = history (user_data_of uid w) ++ [fid] /\
  TEMP_FILE_IDS (user_data_of uid w') = TEMP_FILE_IDS (user_data_of uid w) /\
  (forall uid', uid <> uid' -> user_data_of uid' w' = user_data_of uid' w) /\
  uploads w' = uploads (seeded w) ++ [png] /\
  drawn w' = drawn w /\
  (well_kept w -> well_kept w' /\ seed w' = seed w /\ collection_size w' = 1).
Proof.
  intros Hb uid fid w'. subst w'. rewrite message_run. cbn [fst snd].
  pose proof (message_files user chat_id text w) as Hf. rewrite Hb in Hf.
  assert (Hu : uploads (message_effect user chat_id text w) = uploads (seeded w) ++ [png]).
  { destruct Hf as [_ ->]. cbn [during].
    assert (Hc : is_Some (collection (trimmed (seeded w))))
      by apply trimmed_collection_some, seeded_collection.
    assert (Hc' : is_Some (collection (published png (trimmed (seeded w))))).
    { unfold published. destruct Hc as [l Hl]. rewrite Hl. unfold collection. simpl.
      rewrite lookup_insert_eq. eauto. }
    rewrite uploads_trimmed, (seeded_id _ Hc'), uploads_published by assumption.
    by rewrite uploads_trimmed. }
  assert (Hud : forall uid', user_data_of uid' (message_effect user chat_id text w)
                = if decide (uid = uid') then snd (append_FILE_IDS fid (user_data_of uid' w))
                  else user_data_of uid' w).
  { intros uid'. by rewrite message_user_data, Hb. }
  assert (Ho : outbox (message_effect user chat_id text w)
               = outbox w ++ [SentChatAction uid "upload_photo"; SentSticker chat_id fid]
               /\ drawn (message_effect user chat_id text w) = drawn w).
  { unfold message_effect. rewrite Hb. autorewrite with frame.
    rewrite seeded_sent, uploads_sent, <- app_assoc. by split. }
  destruct Ho as [Ho Hd].
  split; [reflexivity|]. split; [exact Ho|].
  split; [unfold fid; rewrite file_content_issued, Hu; by rewrite lookup_app_r, Nat.sub_diag|].
  rewrite (Hud uid), decide_True by reflexivity.
  split; [unfold append_FILE_IDS, setdefault_FILE_IDS, history;
          by destruct (FILE_IDS (user_data_of uid w))|].
  split; [unfold append_FILE_IDS, setdefault_FILE_IDS;
          by destruct (FILE_IDS (user_data_of uid w))|].
  split; [intros uid' Hne; by rewrite Hud, decide_False|].
  split; [exact Hu|]. split; [exact Hd|].
  intros Hk. destruct (after_request_kept (Some png) w Hk) as (Hk' & Hs & Hsz & _).
  destruct (same_files_well_kept _ _ Hf Hk') as (H1 & H2 & H3).
  repeat split; congruence.
Qed.

(** X5. Every update is handled without an exception, and a well-kept set
    stays well-kept with the same seed: after a text message and after an
    inline query it holds its seed alone, whether the text rendered or
    not and whether the query had expired or not, and a chosen-result
    notification touches neither the sets nor the files. *)
Theorem handlers_leave_the_set_trimmed (w : World) (u : Update) :
  well_kept w ->
  let w' := snd (run (dispatch u) w) in
  fst (run (dispatch u) w) = inr tt /\
  well_kept w' /\ seed w' = seed w /\
  match u with
  | ChosenInlineResult _ _ => same_files w' w
  | _ => collection_size w' = 1
  end.
Proof.
  intros Hk w'. subst w'. destruct u as [user chat_id text|qid user query|user rid];
    cbn [dispatch].
  - rewrite message_run. cbn [fst snd]. split; [reflexivity|].
    pose proof (message_files user chat_id text w) as Hf.
    destruct (after_request_kept
                (match build_sticker text user with inr png => Some png | inl _ => None end)
                w Hk) as (Hk' & Hs & Hsz & _).
    destruct (same_files_well_kept _ _ Hf Hk') as (H1 & H2 & H3).
    repeat split; congruence.
  - rewrite inline_run. cbn [fst snd]. split; [reflexivity|].
    pose proof (inline_files qid user query w) as Hf.
    destruct (truthy query).
    + destruct (after_request_kept
                  (match build_sticker query user with inr png => Some png | inl _ => None end)
                  w Hk) as (Hk' & Hs & Hsz & _).
      destruct (same_files_well_kept _ _ Hf Hk') as (H1 & H2 & H3).
      repeat split; congruence.
    + rewrite (well_kept_seeded w Hk) in Hf.
      destruct (clean_sticker_set_kept w Hk) as (_ & Hk' & Hs & Hsz).
      destruct (same_files_well_kept _ _ Hf Hk') as (H1 & H2 & H3).
      repeat split; congruence.
  - rewrite handle_chosen_inline_result_run. cbn [fst snd]. split; [reflexivity|].
    assert (Hf : same_files
                   (if startswith rid "tweet" then w
                    else with_user_data (user_id user)
                           (chosen_effect rid (user_data_of (user_id user) w)) w) w).
    { destruct (startswith rid "tweet"); by split. }
    destruct (same_files_well_kept _ _ Hf Hk) as (H1 & H2 & _). auto.
Qed.

(** X6. The histories only grow, and by one file id at a time: whatever
    update is handled, the history of every user afterwards is the history
    before followed by at most one file id; nothing is appended to the
    history of a user other than the sender, and nothing at all by an
    inline query. *)
Theorem history_is_append_only (w : World) (u : Update) (uid : Z) :
  let w' := snd (run (dispatch u) w) in
  exists l : list string,
    history (user_data_of uid w') = history (user_data_of uid w) ++ l /\
    length l <= 1 /\
    (uid <> user_id (sender u) -> l = []) /\
    match u with InlineQuery _ _ _ => l = [] | _ => True end.
Proof.
  intros w'. subst w'. destruct u as [user chat_id text|qid user query|user rid];
    cbn [dispatch sender].
  - rewrite message_run. cbn [snd]. rewrite message_user_data.
    destruct (build_sticker text user) as [msg|png];
      [|destruct (decide (user_id user = uid)) as [<-|Hne]].
    + exists []. rewrite app_nil_r. simpl. auto.
    + eexists [_]. split; [|simpl; split; [lia|split; [congruence|trivial]]].
      unfold append_FILE_IDS, setdefault_FILE_IDS, history.
      by destruct (FILE_IDS (user_data_of (user_id user) w)).
    + exists []. rewrite app_nil_r. simpl. auto.
  - rewrite inline_run. cbn [snd]. rewrite inline_history.
    exists []. rewrite app_nil_r. simpl. auto.
  - rewrite handle_chosen_inline_result_run. cbn [snd].
    destruct (startswith rid "tweet").
    { exists []. rewrite app_nil_r. simpl. auto. }
    destruct (decide (user_id user = uid)) as [<-|Hne].
    + rewrite user_data_of_with. unfold chosen_effect.
      destruct (pending (user_data_of (user_id user) w) !! rid) as [fid|];
        [destruct (truthy fid)|].
      * exists [fid]. rewrite history_mk. simpl.
        split; [reflexivity|split; [lia|split; [congruence|trivial]]].
      * exists []. rewrite app_nil_r. simpl.
        split; [unfold history; by destruct (FILE_IDS _)|auto].
      * exists []. rewrite app_nil_r. simpl.
        split; [unfold history; by destruct (FILE_IDS _)|auto].
    + rewrite user_data_of_with_ne by done.
      exists []. rewrite app_nil_r. simpl. auto.
Qed.

(** X7. A chosen-result notification that arrives twice counts once:
    handling it returns normally, handling it a second time returns
    normally too, and leaves everything as the first time left it. *)
Theorem chosen_result_twice_is_once (w : World) (user : User) (result_id : string) :
  fst (run (handle_chosen_inline_result user result_id) w) = inr tt /\
  fst (run (handle_chosen_inline_result user result_id ;;
            handle_chosen_inline_result user result_id)%prog w) = inr tt /\
  run (handle_chosen_inline_result user result_id ;;
       handle_chosen_inline_result user result_id)%prog w
  = run (handle_chosen_inline_result user result_id) w.
Proof.
  rewrite run_bind, !handle_chosen_inline_result_run. cbv iota beta.
  cbn [fst]. split; [reflexivity|]. split; [reflexivity|].
  destruct (startswith result_id "tweet"); [reflexivity|].
  rewrite user_data_of_with, with_user_data_twice.
  assert (H : forall ud, chosen_effect result_id (chosen_effect result_id ud)
                         = chosen_effect result_id ud).
  { intros ud. unfold chosen_effect. by rewrite pending_mk, lookup_empty. }
  by rewrite H.
Qed.

(** X8. An inline query that has expired on the platform: the error of the
    answer is swallowed and [inline] returns; nothing is delivered, but
    the sticker has been published all the same, its file uploaded and its
    pending selection recorded under the UUID drawn. *)
Theorem expired_query_still_publishes (w : World) (qid : string) (user : User)
    (query png : string) :
  qid ∈ expired_queries w ->
  truthy query = true -> build_sticker query user = inr png ->
  let uid := user_id user in
  let fid := issue_file_id (length (uploads (seeded w))) in
  let w' := snd (run (inline qid user query) w) in
  fst (run (inline qid user query) w) = inr tt /\
  outbox w' = outbox w /\
  uploads w' = uploads (seeded w) ++ [png] /\
  file_content w' fid = Some png /\
  pending (user_data_of uid w') = <[uuid4 (drawn w) := fid]> (pending (user_data_of uid w)) /\
  drawn w' = S (drawn w).
Proof.
  intros Hq Ht Hb uid fid w'. subst w'. rewrite inline_run. cbn [fst snd].
  destruct (inline_effect_rendered qid user query png w Ht Hb)
    as (_ & Hud & _ & Hd & Hup & _ & Ho & _).
  rewrite (bool_decide_eq_true_2 _ Hq), app_nil_r in Ho. subst uid fid.
  rewrite Hud, pending_mk, file_content_issued, Hup.
  repeat split; try assumption. by rewrite lookup_app_r, Nat.sub_diag.
Qed.

(** X9. No handler touches the [user_data] of another user, and a
    chosen-result notification touches nothing but the [user_data] of its
    sender: no sticker set, no file, nothing sent, no UUID drawn. *)
Theorem other_users_are_untouched (w : World) (u : Update) :
  let w' := snd (run (dispatch u) w) in
  (forall uid, uid <> user_id (sender u) -> user_data_of uid w' = user_data_of uid w) /\
  match u with
  | ChosenInlineResult _ _ =>
      sticker_sets w' = sticker_sets w /\ uploads w' = uploads w /\
      outbox w' = outbox w /\ drawn w' = drawn w /\ expired_queries w' = expired_queries w
  | _ => True
  end.
Proof.
  intros w'. subst w'. destruct u as [user chat_id text|qid user query|user rid];
    cbn [dispatch sender].
  - split; [|trivial]. intros uid Hne. rewrite message_run. cbn [snd].
    rewrite message_user_data. destruct (build_sticker text user); [reflexivity|].
    by rewrite decide_False by congruence.
  - split; [|trivial]. intros uid Hne. rewrite inline_run. cbn [snd].
    assert (Hn : user_id user <> uid) by congruence.
    destruct (truthy query) eqn:Ht;
      [destruct (build_sticker query user) as [msg|png] eqn:Hb|].
    2: { by destruct (inline_effect_rendered qid user query png w Ht Hb)
           as (_ & _ & -> & _). }
    all: rewrite inline_effect_no_sticker by eauto; cbn [snd].
    all: destruct (bool_decide _); autorewrite with frame.
    all: rewrite user_data_of_on_ne by done; by autorewrite with frame.
  - rewrite handle_chosen_inline_result_run. cbn [snd].
    destruct (startswith rid "tweet"); [by repeat split|].
    split; [|by repeat split]. intros uid Hne. by rewrite user_data_of_with_ne.
Qed.

(** ** Errors of the platform *)

Lemma prefix_spec (p s : string) :
  String.prefix p s = true <-> exists post, s = p +:+ post.
Proof.
  revert s. induction p as [|a p IH]; intros s; simpl.
  - split; [intros _; by exists s|intros _; by destruct s].
  - destruct s as [|b s]; simpl.
    + split; [discriminate|intros [post H]; discriminate].
    + destruct (Ascii.ascii_dec a b) as [->|Hne].
      * rewrite IH. split; intros [post H]; exists post; [by rewrite H|by injection H].
      * split; [discriminate|]. intros [post H]. injection H as H1 _. congruence.
Qed.

Lemma contains_unfold (needle hay : string) :
  contains needle hay
  = if String.prefix needle hay then true
    else match hay with
         | EmptyString => false
         | String _ hay' => contains needle hay'
         end.
Proof. by destruct hay. Qed.

(** [needle in hay] holds exactly when [needle] occurs somewhere in [hay]. *)
Lemma contains_spec (needle hay : string) :
  contains needle hay = true <-> exists pre post, hay = pre +:+ needle +:+ post.
Proof.
  induction hay as [|c hay IH]; rewrite contains_unfold.
  - destruct (String.prefix needle "") eqn:E.
    + apply prefix_spec in E as [post E]. split; [|by intros _].
      intros _. by exists "", post.
    + split; [discriminate|]. intros (pre & post & H).
      destruct pre; [|discriminate]. simpl in H.
      assert (String.prefix needle "" = true) by (apply prefix_spec; eauto). congruence.
  - destruct (String.prefix needle (String c hay)) eqn:E.
    + apply prefix_spec in E as [post E]. split; [|by intros _].
      intros _. by exists "", post.
    + rewrite IH. split.
      * intros (pre & post & H). exists (String c pre), post. simpl. by rewrite H.
      * intros (pre & post & H). destruct pre as [|c' pre].
        -- simpl in H.
           assert (String.prefix needle (String c hay) = true)
             by (apply prefix_spec; eauto).
           congruence.
        -- simpl in H. injection H as _ H. eauto.
Qed.

Lemma not_contains (needle hay : string) :
  contains needle hay = false -> forall pre post, hay <> pre +:+ needle +:+ post.
Proof.
  intros H pre post E.
  assert (contains needle hay = true) by (apply contains_spec; eauto). congruence.
Qed.

Lemma contains_false (needle hay : string) :
  (forall pre post, hay <> pre +:+ needle +:+ post) -> contains needle hay = false.
Proof.
  intros H. destruct (contains needle hay) eqn:E; [|reflexivity].
  apply contains_spec in E as (pre & post & E). by destruct (H pre post).
Qed.

(** X10. [get_sticker_set] creates the set only for a [BadRequest] whose
    message has [invalid] in it, in lower case, anywhere: for any other
    [BadRequest] of [bot.get_sticker_set] it makes no further call and
    raises that error, on whatever platform; for one with [invalid] in it
    it goes on with [create_new_sticker_set]. *)
Theorem get_sticker_set_other_errors (name msg : string) :
  exists k : string + StickerSet -> Prog StickerSet,
    get_sticker_set name = Call (GetStickerSet name) k /\
    ((forall pre post, msg <> pre +:+ "invalid" +:+ post) ->
     k (inl msg) = Throw (BadRequest msg) /\
     forall (W : Type) (h : forall R, Api R -> W -> (string + R) * W) (w0 w1 : W),
       h _ (GetStickerSet name) w0 = (inl msg, w1) ->
       run_on h (get_sticker_set name) w0 = (inl (BadRequest msg), w1)) /\
    (forall pre post, msg = pre +:+ "invalid" +:+ post ->
     exists k',
       k (inl msg) = Call (CreateNewStickerSet ADMIN name STICKER_SET_NAME bird logo_png) k').
Proof.
  eexists. split; [reflexivity|]. split.
  - intros H. apply contains_false in H. cbn beta iota. rewrite H.
    split; [reflexivity|]. intros W h w0 w1 Hg.
    unfold get_sticker_set. by rewrite run_on_catch, run_on_call, Hg, H.
  - intros pre post H.
    assert (Hc : contains "invalid" msg = true) by (apply contains_spec; eauto).
    cbn beta iota. rewrite Hc. eexists. reflexivity.
Qed.

Lemma get_sticker_set_answered {W} (h : forall R, Api R -> W -> (string + R) * W)
    (name : string) (set : StickerSet) (w0 w1 : W) :
  h _ (GetStickerSet name) w0 = (inr set, w1) ->
  run_on h (get_sticker_set name) w0 = (inr set, w1).
Proof. intros H. unfold get_sticker_set. by rewrite run_on_catch, run_on_call, H. Qed.

Lemma delete_loop_tolerant {W} (h : forall R, Api R -> W -> (string + R) * W)
    (l : list Sticker) (w : W) :
  (forall s w, s ∈ l ->
     exists w', h _ (DeleteStickerFromSet (file_id s)) w = (inr tt, w') \/
       exists msg, h _ (DeleteStickerFromSet (file_id s)) w = (inl msg, w') /\
                   contains "Stickerset_not_modified" msg = true) ->
  fst (run_on h (for_each l (fun sticker =>
         catch (call (DeleteStickerFromSet (file_id sticker)))
           (fun e =>
              match e with
              | BadRequest msg =>
                  if contains "Stickerset_not_modified" msg then Ret tt else Throw e
              | _ => Throw e
              end))) w) = inr tt.
Proof.
  revert w. induction l as [|s l IH]; intros w H; [reflexivity|].
  cbn [for_each]. rewrite run_on_bind, run_on_catch, run_on_call.
  destruct (H s w) as (w' & [Hd|(msg & Hd & Hc)]); [apply list_elem_of_here| |];
    rewrite Hd; cbn beta iota; rewrite ?Hc; cbn [run_on];
    apply IH; intros s' w0 Hs'; apply H; by apply list_elem_of_further.
Qed.

(** X11. The errors of [delete_sticker_from_set] in [clean_sticker_set],
    on whatever platform.  When every deletion is answered with success or
    with a [BadRequest] that has [Stickerset_not_modified] in it, the trim
    returns normally.  When the deletion of the second sticker is answered
    with any other [BadRequest], the trim raises it at once: the state is
    the one this answer left, and no later sticker is deleted. *)
Theorem trim_tolerates_only_not_modified (W : Type)
    (h : forall R, Api R -> W -> (string + R) * W) (w0 w1 : W) (set : StickerSet) :
  h _ (GetStickerSet build_sticker_set_name) w0 = (inr set, w1) ->
  ((forall s w, s ∈ tail (stickers set) ->
      exists w', h _ (DeleteStickerFromSet (file_id s)) w = (inr tt, w') \/
        exists msg, h _ (DeleteStickerFromSet (file_id s)) w = (inl msg, w') /\
                    exists pre post, msg = pre +:+ "Stickerset_not_modified" +:+ post) ->
   fst (run_on h clean_sticker_set w0) = inr tt) /\
  (forall s0 s1 rest msg w2,
     stickers set = s0 :: s1 :: rest ->
     h _ (DeleteStickerFromSet (file_id s1)) w1 = (inl msg, w2) ->
     (forall pre post, msg <> pre +:+ "Stickerset_not_modified" +:+ post) ->
     run_on h clean_sticker_set w0 = (inl (BadRequest msg), w2)).
Proof.
  intros Hg. split.
  - intros H. unfold clean_sticker_set.
    rewrite run_on_bind, (get_sticker_set_answered h _ set w0 w1 Hg).
    destruct (1 <? length (stickers set))%nat; [|reflexivity].
    apply delete_loop_tolerant. intros s w Hs.
    destruct (H s w Hs) as (w' & [Hd|(msg & Hd & Hc)]); exists w'; [by left|right].
    exists msg. split; [assumption|]. by apply contains_spec.
  - intros s0 s1 rest msg w2 Hs Hd Hn. apply contains_false in Hn.
    unfold clean_sticker_set.
    rewrite run_on_bind, (get_sticker_set_answered h _ set w0 w1 Hg), Hs.
    cbn [length Nat.ltb Nat.leb tail for_each].
    by rewrite run_on_bind, run_on_catch, run_on_call, Hd, Hn.
Qed.

(** ** The ids in an answer *)

Lemma tweet_id_inj (i j : nat) : "tweet " +:+ pretty i = "tweet " +:+ pretty j -> i = j.
Proof. simpl. intros H. injection H as H. by apply (inj pretty). Qed.

Lemma history_candidates_ids_distinct (file_ids : list string) :
  NoDup (id <$> history_candidates file_ids).
Proof.
  apply NoDup_alt. intros i j x. rewrite !list_lookup_fmap, !history_candidates_lookup.
  destruct (reverse file_ids !! i), (reverse file_ids !! j); simpl; try discriminate.
  intros H1 H2. apply tweet_id_inj. congruence.
Qed.

(** X12. The result ids of a delivered answer of [inline] are pairwise
    distinct (UUIDs having their format), and an id names its candidate by
    position: in the answer to an empty query the candidate at position
    [i], counted from 0, has the id [tweet i] and offers the sticker that
    entered the history as the [i]-th from the end. *)
Theorem answer_ids_are_distinct (w : World) (qid : string) (user : User) (query : string) :
  (forall n, is_uuid4 (uuid4 n) = true) ->
  qid ∉ expired_queries w ->
  let h := history (user_data_of (user_id user) w) in
  let w' := snd (run (inline qid user query) w) in
  exists kwargs,
    outbox w' = outbox w ++ [SentAnswer qid kwargs] /\
    NoDup (id <$> results kwargs) /\
    (query = "" ->
     length (results kwargs) = length h /\
     forall i fid, h !! i = Some fid ->
       results kwargs !! (length h - S i)
       = Some (mkCachedSticker ("tweet " +:+ pretty (length h - S i)) fid)).
Proof.
  intros Hu Hq h w'. exists (fst (inline_effect qid user query w)).
  subst w'. rewrite inline_run. cbn [snd].
  split; [by apply inline_answer|].
  destruct (truthy query) eqn:Ht;
    [destruct (build_sticker query user) as [msg|png] eqn:Hb|].
  2: { destruct (inline_effect_rendered qid user query png w Ht Hb) as (-> & _).
       cbn [results]. split; [|intros ->; discriminate].
       rewrite fmap_cons. apply NoDup_cons. split; [|apply history_candidates_ids_distinct].
       cbn [id]. intros Hin. apply list_elem_of_fmap in Hin as (c & Hc & Hin).
       pose proof (history_candidates_ids h) as Hall. rewrite Forall_forall in Hall.
       destruct (Hall c Hin) as [Hs _]. rewrite <- Hc in Hs.
       by rewrite (uuid4_not_tweet _ (Hu _)) in Hs. }
  all: rewrite inline_effect_no_sticker by eauto; cbn [fst]; rewrite Ht; cbn [results].
  - split; [constructor|intros ->; discriminate].
  - fold h. split; [apply history_candidates_ids_distinct|]. intros _.
    split.
    + unfold history_candidates. by rewrite length_imap, length_reverse.
    + intros i fid Hi. rewrite history_candidates_lookup.
      pose proof (lookup_lt_Some _ _ _ Hi) as Hlt.
      rewrite reverse_lookup by lia.
      replace (length h - S (length h - S i)) with i by lia. by rewrite Hi.
Qed.

(** ** What the histories hold *)

Lemma issued_grow (w w' : World) (extra : list string) :
  uploads w' = uploads w ++ extra -> issued w ⊆ issued w'.
Proof.
  intros E. unfold issued. rewrite E, length_app.
  intros x Hx. apply list_elem_of_fmap in Hx as (k & -> & Hin).
  apply list_elem_of_fmap. exists k. split; [reflexivity|].
  apply elem_of_seq in Hin. apply elem_of_seq. lia.
Qed.

Lemma issued_next (w w' : World) (png : string) (extra : list string) :
  uploads w' = uploads w ++ png :: extra -> issue_file_id (length (uploads w)) ∈ issued w'.
Proof.
  intros E. unfold issued. apply list_elem_of_fmap. eexists. split; [reflexivity|].
  apply elem_of_seq. rewrite E, length_app. simpl. lia.
Qed.

Lemma uploads_seeded_grow (w : World) : exists extra, uploads (seeded w) = uploads w ++ extra.
Proof.
  unfold seeded, seeded_at. destruct (sticker_sets w !! build_sticker_set_name).
  - exists []. by rewrite app_nil_r.
  - by exists [logo_png].
Qed.

Lemma uploads_after_request (rendered : option string) (w : World) :
  exists extra,
    uploads (trimmed (seeded (during rendered w)))
    = uploads (seeded w) ++ option_list rendered ++ extra.
Proof.
  rewrite uploads_trimmed.
  destruct (uploads_seeded_grow (during rendered w)) as [extra ->]. exists extra.
  destruct rendered as [png|]; cbn [during option_list].
  - rewrite uploads_published by apply trimmed_collection_some, seeded_collection.
    by rewrite uploads_trimmed, <- app_assoc.
  - by rewrite uploads_trimmed.
Qed.

Lemma tidy_grow (w w' : World) (ud ud' : UserData) :
  tidy w ud -> issued w ⊆ issued w' ->
  history ud' = history ud -> pending ud' = pending ud -> tidy w' ud'.
Proof.
  intros (Hn & Hh & Hp & Hk) Hsub Eh Ep. unfold tidy. rewrite Eh, Ep.
  split; [assumption|]. split; [intros fid Hf; by apply Hsub, Hh|].
  split; [|assumption]. intros key fid Hf. destruct (Hp key fid Hf) as [Hi Hnh].
  split; [by apply Hsub|assumption].
Qed.

Lemma tidy_append (w w' : World) (ud ud' : UserData) (fid : string) :
  tidy w ud -> issued w ⊆ issued w' -> fid ∉ issued w -> fid ∈ issued w' ->
  history ud' = history ud ++ [fid] -> pending ud' = pending ud -> tidy w' ud'.
Proof.
  intros (Hn & Hh & Hp & Hk) Hsub Hfresh Hnew Eh Ep. unfold tidy. rewrite Eh, Ep.
  split.
  { apply NoDup_app. split; [assumption|]. split; [|apply NoDup_singleton].
    intros x Hx Hx'. apply list_elem_of_singleton in Hx'. subst x. by apply Hfresh, Hh. }
  split.
  { intros x Hx. apply elem_of_app in Hx as [Hx|Hx]; [by apply Hsub, Hh|].
    apply list_elem_of_singleton in Hx. by subst x. }
  split; [|assumption]. intros key x Hx. destruct (Hp key x Hx) as [Hi Hnh].
  split; [by apply Hsub|]. intros Hin. apply elem_of_app in Hin as [Hin|Hin]; [by apply Hnh|].
  apply list_elem_of_singleton in Hin. by subst x.
Qed.

Lemma tidy_store (w w' : World) (ud ud' : UserData) (key fid : string) :
  tidy w ud -> issued w ⊆ issued w' -> fid ∉ issued w -> fid ∈ issued w' ->
  history ud' = history ud -> pending ud' = <[key := fid]> (pending ud) -> tidy w' ud'.
Proof.
  intros (Hn & Hh & Hp & Hk) Hsub Hfresh Hnew Eh Ep. unfold tidy. rewrite Eh, Ep.
  split; [assumption|]. split; [intros x Hx; by apply Hsub, Hh|]. split.
  - intros k x Hx. destruct (decide (key = k)) as [<-|Hne].
    + rewrite lookup_insert_eq in Hx. injection Hx as <-.
      split; [assumption|]. intros Hin. by apply Hfresh, Hh.
    + rewrite lookup_insert_ne in Hx by done. destruct (Hp k x Hx) as [Hi Hnh].
      split; [by apply Hsub|assumption].
  - intros k1 k2 x H1 H2.
    destruct (decide (key = k1)) as [<-|Hn1], (decide (key = k2)) as [<-|Hn2];
      [reflexivity| | |].
    + rewrite lookup_insert_eq in H1. injection H1 as <-.
      rewrite lookup_insert_ne in H2 by done. by destruct Hfresh, (Hp k2 fid H2).
    + rewrite lookup_insert_eq in H2. injection H2 as <-.
      rewrite lookup_insert_ne in H1 by done. by destruct Hfresh, (Hp k1 fid H1).
    + rewrite lookup_insert_ne in H1, H2 by done. by apply (Hk k1 k2 x).
Qed.

Lemma tidy_chosen (w : World) (ud : UserData) (result_id : string) :
  tidy w ud -> tidy w (chosen_effect result_id ud).
Proof.
  intros (Hn & Hh & Hp & Hk). unfold tidy, chosen_effect. rewrite pending_mk.
  assert (Hempty : forall l,
    NoDup (history (mkUserData l (Some ∅))) ->
    (forall fid, fid ∈ history (mkUserData l (Some ∅)) -> fid ∈ issued w) ->
    NoDup (history (mkUserData l (Some ∅))) /\
    (forall fid, fid ∈ history (mkUserData l (Some ∅)) -> fid ∈ issued w) /\
    (forall key fid, (∅ : gmap string string) !! key = Some fid ->
       fid ∈ issued w /\ fid ∉ history (mkUserData l (Some ∅))) /\
    (forall k1 k2 fid, (∅ : gmap string string) !! k1 = Some fid ->
       (∅ : gmap string string) !! k2 = Some fid -> k1 = k2)).
  { intros l H1 H2. split; [assumption|]. split; [assumption|].
    split; intros ? ?; rewrite lookup_empty; discriminate. }
  destruct (pending ud !! result_id) as [fid|] eqn:E;
    [destruct (truthy fid)|]; try (apply Hempty; assumption).
  destruct (Hp result_id fid E) as [Hi Hnh]. apply Hempty; rewrite history_mk.
  - apply NoDup_app. split; [assumption|]. split; [|apply NoDup_singleton].
    intros x Hx Hx'. apply list_elem_of_singleton in Hx'. by subst x.
  - intros x Hx. apply elem_of_app in Hx as [Hx|Hx]; [by apply Hh|].
    apply list_elem_of_singleton in Hx. by subst x.
Qed.

Lemma append_FILE_IDS_spec (fid : string) (ud : UserData) :
  history (snd (append_FILE_IDS fid ud)) = history ud ++ [fid] /\
  pending (snd (append_FILE_IDS fid ud)) = pending ud.
Proof. by destruct ud as [[l|] d]. Qed.

Lemma inline_no_sticker_user_data qid user query w uid :
  truthy query = false \/ (exists msg, build_sticker query user = inl msg) ->
  history (user_data_of uid (snd (inline_effect qid user query w)))
  = history (user_data_of uid w) /\
  pending (user_data_of uid (snd (inline_effect qid user query w)))
  = pending (user_data_of uid w).
Proof.
  intros H. split; [apply inline_history|].
  rewrite inline_effect_no_sticker by assumption. cbn [snd].
  destruct (bool_decide _); autorewrite with frame.
  all: destruct (decide (user_id user = uid)) as [<-|Hn];
       [autorewrite with frame; unfold pending;
        by destruct (setdefault_FILE_IDS_keeps (user_data_of (user_id user) w)) as [_ ->]
       |rewrite user_data_of_on_ne by done; by autorewrite with frame].
Qed.

Lemma not_issued_before (w : World) :
  issue_file_id (length (uploads (seeded w))) ∉ issued w.
Proof.
  intros H. apply (not_yet_issued (seeded w)).
  destruct (uploads_seeded_grow w) as [extra E]. by apply (issued_grow w _ extra E).
Qed.

Lemma dispatch_tidy (u : Update) (w : World) :
  (forall uid, tidy w (user_data_of uid w)) ->
  forall uid, tidy (snd (run (dispatch u) w)) (user_data_of uid (snd (run (dispatch u) w))).
Proof.
  intros Ht uid. destruct (uploads_seeded_grow w) as [e0 E0].
  destruct u as [user chat_id text|qid user query|user result_id]; cbn [dispatch].
  - rewrite message_run. cbn [snd].
    destruct (message_files user chat_id text w) as [_ Hu].
    destruct (uploads_after_request
                (match build_sticker text user with
                 | inr png => Some png | inl _ => None end) w) as [extra Hx].
    rewrite Hx in Hu. rewrite message_user_data.
    destruct (build_sticker text user) as [msg|png]; cbn [option_list] in Hu.
    + apply (tidy_grow w _ (user_data_of uid w)); [apply Ht| |reflexivity..].
      apply (issued_grow w _ (e0 ++ extra)). by rewrite Hu, E0, app_nil_l, app_assoc.
    + assert (Hsub : issued w ⊆ issued (message_effect user chat_id text w)).
      { apply (issued_grow w _ (e0 ++ png :: extra)). by rewrite Hu, E0, <- app_assoc. }
      destruct (decide (user_id user = uid)) as [_|_];
        [|apply (tidy_grow w _ (user_data_of uid w)); [apply Ht|assumption|reflexivity..]].
      destruct (append_FILE_IDS_spec (issue_file_id (length (uploads (seeded w))))
                  (user_data_of uid w)) as [Eh Ep].
      apply (tidy_append w _ (user_data_of uid w) _ _ (Ht uid) Hsub
               (not_issued_before w) (issued_next (seeded w) _ png extra Hu) Eh Ep).
  - rewrite inline_run. cbn [snd].
    destruct (truthy query) eqn:Hq;
      [destruct (build_sticker query user) as [msg|png] eqn:Hb|].
    2: { destruct (inline_effect_rendered qid user query png w Hq Hb)
           as (_ & Hud & Hne & _ & Hu & _).
         assert (Hsub : issued w ⊆ issued (snd (inline_effect qid user query w))).
         { apply (issued_grow w _ (e0 ++ [png])). by rewrite Hu, E0, <- app_assoc. }
         destruct (decide (user_id user = uid)) as [<-|Hn].
         - rewrite Hud.
           apply (tidy_store w _ (user_data_of (user_id user) w) _ (uuid4 (drawn w))
                    (issue_file_id (length (uploads (seeded w)))) (Ht _) Hsub
                    (not_issued_before w) (issued_next (seeded w) _ png [] Hu));
             reflexivity.
         - rewrite (Hne uid Hn).
           apply (tidy_grow w _ (user_data_of uid w)); [apply Ht|assumption|reflexivity..]. }
    all: destruct (inline_no_sticker_user_data qid user query w uid) as [Eh Ep]; [by eauto|].
    all: apply (tidy_grow w _ (user_data_of uid w) _ (Ht uid)); [|assumption..].
    all: destruct (inline_files qid user query w) as [_ Hu]; rewrite Hq in Hu.
    + rewrite Hb in Hu.
      destruct (uploads_after_request None w) as [extra Hx]. rewrite Hx in Hu.
      apply (issued_grow w _ (e0 ++ extra)). by rewrite Hu, E0, app_nil_l, app_assoc.
    + rewrite uploads_trimmed in Hu. apply (issued_grow w _ e0). by rewrite Hu.
  - rewrite handle_chosen_inline_result_run. cbn [snd].
    destruct (startswith result_id "tweet"); [apply Ht|].
    assert (Hsub : forall ud, issued w ⊆ issued (with_user_data (user_id user) ud w)).
    { intros ud. apply (issued_grow w _ []). cbn [with_user_data uploads]. by rewrite app_nil_r. }
    destruct (decide (user_id user = uid)) as [<-|Hn].
    + rewrite user_data_of_with.
      apply (tidy_grow w _ (chosen_effect result_id (user_data_of (user_id user) w)));
        [apply tidy_chosen, Ht|apply Hsub|reflexivity..].
    + rewrite user_data_of_with_ne by done.
      apply (tidy_grow w _ (user_data_of uid w)); [apply Ht|apply Hsub|reflexivity..].
Qed.

Lemma issued_is_file (w : World) (fid : string) :
  fid ∈ issued w -> is_Some (file_content w fid).
Proof.
  unfold issued. intros H. apply list_elem_of_fmap in H as (k & -> & Hk).
  rewrite file_content_issued. apply lookup_lt_is_Some. apply elem_of_seq in Hk. lia.
Qed.

(** X13. In every state the bot can reach, the history of a user holds no
    file id twice and holds only ids of files the platform was given; the
    pending references are such ids too, none of them is in the history
    yet, and no two keys stand for the same reference. *)
Theorem histories_hold_distinct_files (w : World) (uid : Z) :
  reachable w ->
  NoDup (history (user_data_of uid w)) /\
  (forall fid, fid ∈ history (user_data_of uid w) -> is_Some (file_content w fid)) /\
  (forall key fid, pending (user_data_of uid w) !! key = Some fid ->
     is_Some (file_content w fid) /\ fid ∉ history (user_data_of uid w)) /\
  (forall k1 k2 fid, pending (user_data_of uid w) !! k1 = Some fid ->
     pending (user_data_of uid w) !! k2 = Some fid -> k1 = k2).
Proof.
  intros Hr.
  assert (Ht : forall uid, tidy w (user_data_of uid w)).
  { clear uid. induction Hr as [w H|w u _ IH]; [|by apply dispatch_tidy].
    intros uid. unfold user_data_of. rewrite H, lookup_empty. cbn [default].
    split; [apply NoDup_nil_2|]. split; [intros fid Hf; by apply elem_of_nil in Hf|].
    split; intros ? ?; cbn [pending no_user_data TEMP_FILE_IDS default];
      rewrite lookup_empty; discriminate. }
  destruct (Ht uid) as (Hn & Hh & Hp & Hk).
  split; [assumption|]. split; [intros fid Hf; by apply issued_is_file, Hh|].
  split; [|assumption]. intros key fid Hf. destruct (Hp key fid Hf) as [Hi Hnh].
  split; [by apply issued_is_file|assumption].
Qed.

(** ** The command and the error handler *)

Ltac members :=
  repeat match goal with
         | H : _ ∈ _ :: _ |- _ => apply elem_of_cons in H as [H|H]
         | H : _ ∈ [] |- _ => by apply elem_of_nil in H
         end.

(** X14. Who hears of an error in [error].  The error is logged first,
    whatever it is.  A [RetryAfter] is slept off for its seconds and two
    more, nobody is told and nothing is raised.  Any other error is sent
    to the admin, to nobody else, as the last thing done, exactly when
    what came with it is an [Update]; the sender is told exactly when
    that update has a message, in the chat of that message; and when it
    is not an [Update] the handler itself ends with [UnboundLocalError],
    the admin not being told. *)
Theorem error_reaches_the_admin (lib : Library) (update : option Effective) (err : Failure) :
  let calls := fst (error lib update err) in
  let crash := snd (error lib update err) in
  head calls = Some (LoggedError "Exception while handling an update:") /\
  ((exists text, SentMessage ADMIN text ∈ calls)
   <-> is_retry_after err = false /\ is_Some update) /\
  (forall chat text, SentMessage chat text ∈ calls ->
     chat = ADMIN /\ last calls = Some (SentMessage chat text)) /\
  (forall chat, (exists text markup, Replied chat text markup ∈ calls)
     <-> is_retry_after err = false /\
         exists u, update = Some u /\ effective_message u = Some chat) /\
  (forall n, Slept n ∈ calls <-> err = RetryAfter (n - 2)) /\
  (crash = Some UnboundLocalError <-> is_retry_after err = false /\ update = None).
Proof.
  intros calls crash. subst calls crash.
  destruct err as [r|str trace]; [|destruct update as [u|]; [destruct (effective_message u) as [c|] eqn:Em|]];
    cbn [error fst snd is_retry_after app head]; rewrite ?Em; cbn [app].
  all: split; [reflexivity|].
  all: split; [split; [intros [text H]; members; try discriminate; (split; [reflexivity|by eexists])
                      |intros [H1 H2]; try discriminate; try (by destruct H2 as [? ?]);
                       eexists; repeat first [apply list_elem_of_here|apply list_elem_of_further]]|].
  all: split; [intros chat text H; members; try discriminate;
               injection H as -> ->; by split|].
  all: split; [intros chat; split;
               [intros (text & markup & H); members; try discriminate;
                try (injection H as -> _ _; split; [reflexivity|]; by eexists)
               |intros (H1 & u' & H2 & H3); try discriminate;
                try (injection H2 as <-; rewrite Em in H3; try discriminate;
                     injection H3 as <-; do 2 eexists; apply list_elem_of_further, list_elem_of_here)]|].
  all: split; [intros n; split;
               [intros H; members; try discriminate; injection H as ->; f_equal; lia
               |intros H; try discriminate; injection H as ->;
                apply list_elem_of_further; replace (n - 2 + 2)%Z with n by lia;
                apply list_elem_of_here]|].
  all: split; [intros H; try discriminate; by split|intros [H1 H2]; try discriminate; reflexivity].
Qed.

(** X15. The reply of [info] depends on nothing but whether the command
    has arguments: it is one reply to the chat of the command, two commands
    get the same reply exactly when both have arguments or neither has,
    and with any argument at all the reply is the hyphenation notice with
    one button, [Try again], that opens an empty inline query. *)
Theorem info_looks_at_no_argument (lib : Library) (chat_id : Z) (args args' : list string) :
  (info lib chat_id args = info lib chat_id args' <-> (args = [] <-> args' = [])) /\
  (args <> [] ->
   info lib chat_id args
   = [Replied chat_id (hyphenation_error_text lib)
        (Some (SwitchInlineQueryButton "Try again" ""))]) /\
  (exists text keyboard, info lib chat_id args = [Replied chat_id text (Some keyboard)]).
Proof.
  split; [|split].
  - destruct args as [|a args], args' as [|b args']; cbn [info]; split; try done.
    + intros [H _]. by discriminate H.
    + intros [_ H]. by discriminate H.
  - by destruct args.
  - destruct args; cbn [info]; by do 2 eexists.
Qed.

End Bot.

(** ** Instances on the sample data *)

Abbreviation sample_run := (run sample_uuid4).
Abbreviation sample_inline := (inline 99 "tweets" "status_bot" "logo" sample_render).
Abbreviation sample_message := (message 99 "tweets" "status_bot" "logo" sample_render).
Abbreviation sample_size := (collection_size "tweets" "status_bot").
Abbreviation sample_seed := (seed "tweets" "status_bot").

Lemma sample_uuid4_format (n : nat) : is_uuid4 (sample_uuid4 n) = true.
Proof. unfold sample_uuid4. destruct (n =? 0)%nat; reflexivity. Qed.

Lemma sample_uuid4_differ : sample_uuid4 0 <> sample_uuid4 1.
Proof. discriminate. Qed.

Lemma seeded_world_well_kept : well_kept "tweets" "status_bot" seeded_world.
Proof.
  unfold well_kept. vm_compute collection. split.
  - apply NoDup_singleton.
  - vm_compute. intros x Hx. exact Hx.
Qed.

Lemma collection_size_1_or_2_witness :
  well_kept "tweets" "status_bot" seeded_world /\
  Forall (fun w' => (sample_size w' = 1 \/ sample_size w' = 2)
                    /\ sample_seed w' = sample_seed seeded_world)
         (states 99 "tweets" "status_bot" "logo" sample_render sample_uuid4
                 [Publish "hello" alice; Trim; Publish "far too long" bob; Publish "world" bob]
                 seeded_world).
Proof.
  split; [exact seeded_world_well_kept|].
  apply (collection_size_1_or_2 99 "tweets" "status_bot" "logo" sample_render sample_uuid4
           seeded_world seeded_world_well_kept).
  vm_compute. lia.
Defined.

(** C2, refuted as stated: after two inline queries of Alice, [hello] and
    then [world], with no chosen result in between, her pending selections
    hold two entries, the one of the first query next to the one of the
    second. *)
Lemma two_pending_selections_coexist :
  pending (user_data_of 1
    (snd (sample_run (sample_inline "q1" alice "hello" ;; sample_inline "q2" alice "world")%prog
            fresh_world)))
  !! "3f2b8c1e-5d4a-4e6b-9c7d-1a2b3c4d5e6f" = Some "file1" /\
  pending (user_data_of 1
    (snd (sample_run (sample_inline "q1" alice "hello" ;; sample_inline "q2" alice "world")%prog
            fresh_world)))
  !! "7a1d2c3b-0e9f-4a8b-8c7d-6e5f4a3b2c1d" = Some "file2" /\
  ~ size (pending (user_data_of 1
      (snd (sample_run (sample_inline "q1" alice "hello" ;; sample_inline "q2" alice "world")%prog
              fresh_world)))) <= 1.
Proof. split; [by vm_compute|]. split; [by vm_compute|]. vm_compute. lia. Qed.

Lemma inline_query_adds_pending_witness :
  pending (user_data_of 1 (snd (sample_run (sample_inline "q1" alice "hello") seeded_world)))
  = <[ "3f2b8c1e-5d4a-4e6b-9c7d-1a2b3c4d5e6f" := "file1" ]> ∅.
Proof.
  pose proof (inline_query_adds_pending 99 "tweets" "status_bot" "logo" sample_render
                sample_uuid4 seeded_world "q1" alice "hello" "png of hello for Alice"
                eq_refl eq_refl) as H.
  cbv zeta in H. destruct H as (H & _). exact H.
Defined.

(** C3, refuted as stated: Alice asks for [hello] and then for [world];
    the chosen-result notification citing the key of the first answer finds
    her history empty and leaves the first reference in it. *)
Lemma abandoned_selection_is_promoted :
  history (user_data_of 1
    (snd (sample_run (sample_inline "q1" alice "hello" ;; sample_inline "q2" alice "world")%prog
            fresh_world))) = [] /\
  history (user_data_of 1
    (snd (sample_run (sample_inline "q1" alice "hello" ;; sample_inline "q2" alice "world" ;;
                      handle_chosen_inline_result alice "3f2b8c1e-5d4a-4e6b-9c7d-1a2b3c4d5e6f")%prog
            fresh_world))) = ["file1"].
Proof. split; by vm_compute. Qed.

Lemma both_selections_stay_pending_witness :
  history (user_data_of 1
    (snd (sample_run (handle_chosen_inline_result alice "3f2b8c1e-5d4a-4e6b-9c7d-1a2b3c4d5e6f")
       (snd (sample_run (sample_inline "q2" alice "world")
          (snd (sample_run (sample_inline "q1" alice "hello") seeded_world)))))))
  = [] ++ ["file1"].
Proof.
  pose proof (both_selections_stay_pending 99 "tweets" "status_bot" "logo" sample_render
                sample_uuid4 seeded_world "q1" "q2" alice "hello" "world"
                "png of hello for Alice" "png of world for Alice"
                sample_uuid4_format sample_uuid4_differ eq_refl eq_refl eq_refl eq_refl) as H.
  cbv zeta in H. destruct H as (_ & _ & H & _). exact H.
Defined.

Lemma chosen_result_promotes_pending_witness :
  history (user_data_of 1
    (snd (sample_run (handle_chosen_inline_result alice "3f2b8c1e-5d4a-4e6b-9c7d-1a2b3c4d5e6f")
       (snd (sample_run
               (dispatch 99 "tweets" "status_bot" "logo" sample_render
                         (InlineQuery "q1" alice "hello")) fresh_world)))))
  = [] ++ ["file1"].
Proof.
  pose proof (chosen_result_promotes_pending 99 "tweets" "status_bot" "logo" sample_render
                sample_uuid4
                (snd (sample_run
                        (dispatch 99 "tweets" "status_bot" "logo" sample_render
                                  (InlineQuery "q1" alice "hello")) fresh_world))
                alice "3f2b8c1e-5d4a-4e6b-9c7d-1a2b3c4d5e6f" "file1"
                sample_uuid4_format) as H.
  cbv zeta in H. destruct H as (_ & H & _).
  - apply reachable_update, reachable_start. reflexivity.
  - by vm_compute.
  - exact H.
Defined.

Lemma inline_answer_order_witness :
  exists kwargs,
    outbox (snd (sample_run (sample_inline "q2" alice "")
              (snd (sample_run (sample_message alice 1 "hello" ;;
                                sample_message alice 1 "world")%prog seeded_world))))
    = outbox (snd (sample_run (sample_message alice 1 "hello" ;;
                               sample_message alice 1 "world")%prog seeded_world))
      ++ [SentAnswer "q2" kwargs] /\
    sticker_file_id <$> results kwargs = ["file2"; "file1"].
Proof.
  destruct (inline_answer_order 99 "tweets" "status_bot" "logo" sample_render sample_uuid4
              (snd (sample_run (sample_message alice 1 "hello" ;;
                                sample_message alice 1 "world")%prog seeded_world))
              "q2" alice "") as (kwargs & _ & Ho & _ & _ & He).
  - vm_compute. apply not_elem_of_nil.
  - exists kwargs. split; [exact Ho|].
    destruct (He eq_refl) as (_ & Hf & _). rewrite Hf. by vm_compute.
Defined.

(** C6, refuted as stated: Alice has one sticker in her history and one
    pending selection; she picks the history candidate [tweet 0], and the
    pending selection is still there afterwards. *)
Lemma history_pick_leaves_pending :
  pending (user_data_of 1
    (snd (sample_run (sample_message alice 1 "hello" ;; sample_inline "q1" alice "world" ;;
                      handle_chosen_inline_result alice "tweet 0")%prog fresh_world)))
  !! "3f2b8c1e-5d4a-4e6b-9c7d-1a2b3c4d5e6f" = Some "file2" /\
  pending (user_data_of 1
    (snd (sample_run (sample_message alice 1 "hello" ;; sample_inline "q1" alice "world" ;;
                      handle_chosen_inline_result alice "tweet 0")%prog fresh_world)))
  <> ∅ /\
  history (user_data_of 1
    (snd (sample_run (sample_message alice 1 "hello" ;; sample_inline "q1" alice "world" ;;
                      handle_chosen_inline_result alice "tweet 0")%prog fresh_world)))
  = ["file1"].
Proof.
  split; [by vm_compute|]. split; [|by vm_compute].
  intros H. apply (f_equal (fun m => m !! "3f2b8c1e-5d4a-4e6b-9c7d-1a2b3c4d5e6f")) in H.
  vm_compute in H. discriminate.
Qed.

Lemma history_pick_keeps_pending_witness :
  sample_run (handle_chosen_inline_result alice "tweet 0")
    (snd (sample_run (sample_message alice 1 "hello" ;; sample_inline "q1" alice "world")%prog
            fresh_world))
  = (inr tt,
     snd (sample_run (sample_message alice 1 "hello" ;; sample_inline "q1" alice "world")%prog
            fresh_world)) /\
  pending (user_data_of 1
    (snd (sample_run (handle_chosen_inline_result alice "no such key")
       (snd (sample_run (sample_message alice 1 "hello" ;; sample_inline "q1" alice "world")%prog
               fresh_world))))) = ∅.
Proof.
  split.
  - apply (history_pick_keeps_pending sample_uuid4). reflexivity.
  - apply (history_pick_keeps_pending sample_uuid4); by vm_compute.
Defined.

(** C7, refuted as stated: nothing in [get_sticker_id] keeps the requests
    of two users apart.  Alice's query has added her sticker when Bob's
    query starts: Bob's trim deletes it and Bob adds his own; both then read
    the last sticker of the set.  Alice's pending key stands for the
    sticker rendered for Bob, and her chosen-result notification puts it
    into her history. *)
Lemma interleaved_requests_swap_references :
  sample_render "hello" alice = inr "png of hello for Alice" /\
  sample_render "world" bob = inr "png of world for Bob" /\
  fst (interleave sample_uuid4
         [0; 0; 0; 0; 1; 1; 1; 1; 1; 0; 1; 0; 0; 0; 0; 0; 1; 1; 1; 1]
         [sample_inline "qa" alice "hello"; sample_inline "qb" bob "world"] seeded_world)
  = [Ret tt; Ret tt] /\
  pending (user_data_of 1
    (snd (interleave sample_uuid4
            [0; 0; 0; 0; 1; 1; 1; 1; 1; 0; 1; 0; 0; 0; 0; 0; 1; 1; 1; 1]
            [sample_inline "qa" alice "hello"; sample_inline "qb" bob "world"] seeded_world)))
  !! "3f2b8c1e-5d4a-4e6b-9c7d-1a2b3c4d5e6f" = Some "file2" /\
  file_content
    (snd (interleave sample_uuid4
            [0; 0; 0; 0; 1; 1; 1; 1; 1; 0; 1; 0; 0; 0; 0; 0; 1; 1; 1; 1]
            [sample_inline "qa" alice "hello"; sample_inline "qb" bob "world"] seeded_world))
    "file2" = Some "png of world for Bob" /\
  history (user_data_of 1
    (snd (sample_run (handle_chosen_inline_result alice "3f2b8c1e-5d4a-4e6b-9c7d-1a2b3c4d5e6f")
       (snd (interleave sample_uuid4
               [0; 0; 0; 0; 1; 1; 1; 1; 1; 0; 1; 0; 0; 0; 0; 0; 1; 1; 1; 1]
               [sample_inline "qa" alice "hello"; sample_inline "qb" bob "world"]
               seeded_world)))))
  = ["file2"].
Proof. repeat split; by vm_compute. Qed.

Lemma handlers_in_turn_keep_own_reference_witness :
  exists fa fb,
    pending (user_data_of 1
      (snd (sample_run (sample_inline "qb" bob "world")
         (snd (sample_run (sample_inline "qa" alice "hello") seeded_world)))))
    !! sample_uuid4 0 = Some fa /\
    file_content
      (snd (sample_run (sample_inline "qb" bob "world")
         (snd (sample_run (sample_inline "qa" alice "hello") seeded_world))))
      fa = Some "png of hello for Alice" /\
    pending (user_data_of 2
      (snd (sample_run (sample_inline "qb" bob "world")
         (snd (sample_run (sample_inline "qa" alice "hello") seeded_world)))))
    !! sample_uuid4 1 = Some fb /\
    file_content
      (snd (sample_run (sample_inline "qb" bob "world")
         (snd (sample_run (sample_inline "qa" alice "hello") seeded_world))))
      fb = Some "png of world for Bob".
Proof.
  destruct (handlers_in_turn_keep_own_reference 99 "tweets" "status_bot" "logo" sample_render
              sample_uuid4 seeded_world "qa" "qb" alice bob "hello" "world"
              "png of hello for Alice" "png of world for Bob"
              sample_uuid4_format ltac:(discriminate) eq_refl eq_refl eq_refl eq_refl)
    as (_ & _ & fa & fb & H1 & H2 & H3 & H4 & _).
  exists fa, fb. repeat split; assumption.
Defined.

(** C8, refuted as stated: the platform answers [get_sticker_set] with
    [Stickerset_invalid] and [create_new_sticker_set] with the name being
    taken already; [get_sticker_set] of the bot raises that [BadRequest].
    The platform of this development gives these answers when two handlers
    make sure of a missing set at the same time. *)
Lemma occupied_name_is_raised :
  run_on occupied_platform (get_sticker_set 99 "tweets" "logo" "tweets_by_status_bot") tt
  = (inl (BadRequest "Sticker set name is already occupied"), tt) /\
  fst (interleave sample_uuid4 [0; 1; 0; 1; 0]
         [get_sticker_set 99 "tweets" "logo" "tweets_by_status_bot";
          get_sticker_set 99 "tweets" "logo" "tweets_by_status_bot"] fresh_world)
  = [Ret (mkStickerSet "tweets_by_status_bot" [mkSticker "file0" "🐦"]);
     Throw (BadRequest "Sticker set name is already occupied")].
Proof. split; by vm_compute. Qed.

Lemma get_sticker_set_idempotent_witness :
  sample_run (get_sticker_set 99 "tweets" "logo" "tweets_by_status_bot" ;;
              get_sticker_set 99 "tweets" "logo" "tweets_by_status_bot")%prog fresh_world
  = sample_run (get_sticker_set 99 "tweets" "logo" "tweets_by_status_bot") fresh_world /\
  fst (sample_run (get_sticker_set 99 "tweets" "logo" "tweets_by_status_bot") fresh_world)
  = inr (mkStickerSet "tweets_by_status_bot" [mkSticker (issue_file_id 0) "🐦"]) /\
  sample_run (get_sticker_set 99 "tweets" "logo" "tweets_by_status_bot") seeded_world
  = (inr (mkStickerSet "tweets_by_status_bot" [mkSticker "file0" "🐦"]), seeded_world) /\
  run_on occupied_platform (get_sticker_set 99 "tweets" "logo" "tweets_by_status_bot") tt
  = (inl (BadRequest "Sticker set name is already occupied"), tt).
Proof.
  destruct (get_sticker_set_idempotent 99 "tweets" "logo" sample_uuid4 fresh_world
              "tweets_by_status_bot") as (H1 & H2 & _ & H4).
  destruct (get_sticker_set_idempotent 99 "tweets" "logo" sample_uuid4 seeded_world
              "tweets_by_status_bot") as (_ & _ & H3 & _).
  split; [exact H1|]. split; [apply H2; reflexivity|].
  split; [apply H3; reflexivity|].
  apply (H4 unit occupied_platform tt tt tt "Stickerset_invalid"); reflexivity.
Defined.

(** C9, refuted as stated.  On a text that does not render, [inline] sends
    no text at all: its answer has no candidates and the button
    [Click me!].  And [message], finding a second sticker in the set, trims
    it before it renders: the set shrinks from two stickers to one. *)
Lemma rendering_failure_differs :
  sample_render "far too long" alice
  = inl "Sorry, a word of this text does not fit on one line." /\
  outbox (snd (sample_run (sample_inline "q1" alice "far too long") seeded_world))
  = [SentAnswer "q1" (mkKwargs [] (Some "Click me!") (Some "hyphenation_error"))] /\
  sample_size live_world = 2 /\
  sample_size (snd (sample_run (sample_message alice 1 "far too long") live_world)) = 1.
Proof. repeat split; by vm_compute. Qed.

Lemma rendering_failure_witness :
  outbox (snd (sample_run (sample_message alice 1 "far too long") seeded_world))
  = outbox seeded_world
    ++ [SentChatAction 1 "upload_photo";
        SentText 1 "Sorry, a word of this text does not fit on one line."] /\
  outbox (snd (sample_run (sample_inline "q1" alice "far too long") seeded_world))
  = outbox seeded_world
    ++ [SentAnswer "q1" (mkKwargs [] (Some "Click me!") (Some "hyphenation_error"))] /\
  sample_size (snd (sample_run (sample_inline "q1" alice "far too long") seeded_world))
  = sample_size seeded_world.
Proof.
  destruct (rendering_failure 99 "tweets" "status_bot" "logo" sample_render sample_uuid4
              seeded_world alice "far too long"
              "Sorry, a word of this text does not fit on one line." eq_refl)
    as (Hm & Hi).
  split; [apply (Hm 1%Z)|].
  destruct (Hi "q1" eq_refl) as (_ & Ho & _ & _ & _ & _ & Hk).
  - vm_compute. apply not_elem_of_nil.
  - split; [exact Ho|].
    destruct (Hk seeded_world_well_kept) as (_ & _ & _ & Hsz). by apply Hsz.
Defined.

Lemma candidate_ids_are_disjoint_witness :
  exists kwargs,
    outbox (snd (sample_run (sample_inline "q2" alice "world")
              (snd (sample_run (sample_message alice 1 "hello") seeded_world))))
    = outbox (snd (sample_run (sample_message alice 1 "hello") seeded_world))
      ++ [SentAnswer "q2" kwargs] /\
    Forall (fun c =>
              (startswith (id c) "tweet" = true /\
               sticker_file_id c ∈ history (user_data_of 1
                 (snd (sample_run (sample_message alice 1 "hello") seeded_world)))) \/
              (startswith (id c) "tweet" = false /\ is_uuid4 (id c) = true /\
               pending (user_data_of 1
                 (snd (sample_run (sample_inline "q2" alice "world")
                    (snd (sample_run (sample_message alice 1 "hello") seeded_world)))))
               !! id c = Some (sticker_file_id c)))
           (results kwargs).
Proof.
  destruct (candidate_ids_are_disjoint 99 "tweets" "status_bot" "logo" sample_render
              sample_uuid4
              (snd (sample_run (sample_message alice 1 "hello") seeded_world))
              "q2" alice "world" sample_uuid4_format) as (_ & _ & (kwargs & H1 & H2 & _) & _).
  - vm_compute. apply not_elem_of_nil.
  - exists kwargs. split; [exact H1|exact H2].
Defined.

(** ** Instances of the further properties *)

Lemma littered_world_well_kept : well_kept "tweets" "status_bot" littered_world.
Proof.
  unfold well_kept. vm_compute collection. split.
  - apply (bool_decide_unpack _). by vm_compute.
  - vm_compute. intros x Hx. exact Hx.
Qed.

Lemma leftovers_are_trimmed_witness :
  well_kept "tweets" "status_bot" littered_world /\
  sample_size (perform 99 "tweets" "status_bot" "logo" sample_render sample_uuid4
                       Trim littered_world) = 1.
Proof.
  split; [exact littered_world_well_kept|].
  apply (leftovers_are_trimmed 99 "tweets" "status_bot" "logo" sample_render sample_uuid4
           littered_world Trim littered_world_well_kept).
Defined.

Lemma first_use_creates_the_seed_witness :
  collection "tweets" "status_bot"
    (snd (sample_run (clean_sticker_set 99 "tweets" "status_bot" "logo") fresh_world))
  = Some [mkSticker (issue_file_id (length (uploads fresh_world))) bird].
Proof.
  pose proof (first_use_creates_the_seed 99 "tweets" "status_bot" "logo" sample_render
                sample_uuid4 fresh_world eq_refl) as H.
  cbv zeta in H. destruct H as [(_ & H & _) _]. exact H.
Defined.

Lemma message_delivers_the_sticker_witness :
  history (user_data_of 1 (snd (sample_run (sample_message alice 1 "hello") seeded_world)))
  = history (user_data_of 1 seeded_world)
    ++ [issue_file_id (length (uploads (seeded "tweets" "status_bot" "logo" seeded_world)))].
Proof.
  pose proof (message_delivers_the_sticker 99 "tweets" "status_bot" "logo" sample_render
                sample_uuid4 seeded_world alice 1 "hello" "png of hello for Alice"
                eq_refl) as H.
  cbv zeta in H. destruct H as (_ & _ & _ & H & _). exact H.
Defined.

Lemma handlers_leave_the_set_trimmed_witness :
  well_kept "tweets" "status_bot"
    (snd (sample_run (dispatch 99 "tweets" "status_bot" "logo" sample_render
                               (InlineQuery "q1" alice "far too long")) seeded_world)).
Proof.
  pose proof (handlers_leave_the_set_trimmed 99 "tweets" "status_bot" "logo" sample_render
                sample_uuid4 seeded_world (InlineQuery "q1" alice "far too long")
                seeded_world_well_kept) as H.
  cbv zeta in H. destruct H as (_ & H & _). exact H.
Defined.

Lemma expired_query_still_publishes_witness :
  outbox (snd (sample_run (sample_inline "q1" alice "hello") stale_world)) = outbox stale_world /\
  file_content (snd (sample_run (sample_inline "q1" alice "hello") stale_world))
    (issue_file_id (length (uploads (seeded "tweets" "status_bot" "logo" stale_world))))
  = Some "png of hello for Alice".
Proof.
  pose proof (expired_query_still_publishes 99 "tweets" "status_bot" "logo" sample_render
                sample_uuid4 stale_world "q1" alice "hello" "png of hello for Alice") as H.
  cbv zeta in H. destruct H as (_ & H1 & _ & H2 & _).
  - vm_compute. apply list_elem_of_here.
  - reflexivity.
  - reflexivity.
  - split; [exact H1|exact H2].
Defined.

Lemma get_sticker_set_other_errors_witness :
  run_on forbidding_platform
    (get_sticker_set 99 "tweets" "logo" "tweets_by_status_bot") tt
  = (inl (BadRequest "Not enough rights"), tt).
Proof.
  destruct (get_sticker_set_other_errors 99 "tweets" "logo" "tweets_by_status_bot"
              "Not enough rights") as (k & _ & H & _).
  destruct H as [_ H]; [apply not_contains; reflexivity|].
  apply (H unit forbidding_platform tt tt). reflexivity.
Defined.

Lemma trim_tolerates_only_not_modified_witness :
  run_on refusing_platform (clean_sticker_set 99 "tweets" "status_bot" "logo") tt
  = (inl (BadRequest "Not enough rights"), tt).
Proof.
  destruct (trim_tolerates_only_not_modified 99 "tweets" "status_bot" "logo" unit
              refusing_platform tt tt
              (mkStickerSet "tweets_by_status_bot"
                 [mkSticker "file0" "🐦"; mkSticker "file1" "🐦"]) eq_refl) as [_ H].
  apply (H (mkSticker "file0" "🐦") (mkSticker "file1" "🐦") [] "Not enough rights" tt);
    [reflexivity|reflexivity|apply not_contains; reflexivity].
Defined.

Lemma answer_ids_are_distinct_witness :
  exists kwargs,
    outbox (snd (sample_run (sample_inline "q2" alice "world")
              (snd (sample_run (sample_message alice 1 "hello") seeded_world))))
    = outbox (snd (sample_run (sample_message alice 1 "hello") seeded_world))
      ++ [SentAnswer "q2" kwargs] /\
    NoDup (id <$> results kwargs).
Proof.
  destruct (answer_ids_are_distinct 99 "tweets" "status_bot" "logo" sample_render
              sample_uuid4
              (snd (sample_run (sample_message alice 1 "hello") seeded_world))
              "q2" alice "world" sample_uuid4_format) as (kwargs & H1 & H2 & _).
  - vm_compute. apply not_elem_of_nil.
  - exists kwargs. split; [exact H1|exact H2].
Defined.

Lemma histories_hold_distinct_files_witness :
  NoDup (history (user_data_of 1
    (snd (sample_run (dispatch 99 "tweets" "status_bot" "logo" sample_render
                               (TextMessage alice 1 "hello")) fresh_world)))).
Proof.
  apply (histories_hold_distinct_files 99 "tweets" "status_bot" "logo" sample_render
           sample_uuid4).
  apply reachable_update, reachable_start. reflexivity.
Defined.
